(** * freemocap calibration pipeline: shared-view accumulation

    A shallow embedding of
    [freemocap/pipelines/calibration_pipeline/shared_view_accumulator.py],
    [positional_6dof.py] and [calibration_camera_node.py].

    Python [int] is [Z].  A Python [dict] is an association list kept in
    insertion order with at most one binding per key, because the code
    iterates [.values()] and [.items()].  Code that can raise runs in the
    small error monad [py]. *)

From Stdlib Require Import ZArith List Bool Lia Permutation Sorted String.
Import ListNotations.
Local Open Scope Z_scope.

(** ** Exceptions and the error monad *)

Inductive exception : Type :=
| KeyError (key : Z)
| AttributeError (name : string)
| Exception (message : string).

Inductive py (A : Type) : Type :=
| Return (a : A)
| Raise (e : exception).
Arguments Return {A} a.
Arguments Raise {A} e.

Definition bind {A B : Type} (m : py A) (k : A -> py B) : py B :=
  match m with
  | Return a => k a
  | Raise e => Raise e
  end.

Notation "x <- m ;; k" := (bind m (fun x => k))
  (at level 61, m at next level, right associativity).

(** [for x in xs: s = body s x], stopping at the first exception. *)
Fixpoint for_each {S A : Type} (body : S -> A -> py S) (s : S) (xs : list A) : py S :=
  match xs with
  | [] => Return s
  | x :: rest => s' <- body s x ;; for_each body s' rest
  end.

(** The value a computation returned, if it returned. *)
Definition returned {A : Type} (m : py A) : option A :=
  match m with
  | Return a => Some a
  | Raise _ => None
  end.

Definition raises {A : Type} (m : py A) : bool :=
  match m with
  | Return _ => false
  | Raise _ => true
  end.

(** ** Insertion-ordered dictionaries with integer keys *)

Module PyDict.
Section Dict.
Context {V : Type}.

Definition dict : Type := list (Z * V).

Definition keys (d : dict) : list Z := map fst d.
Definition values (d : dict) : list V := map snd d.
Definition items (d : dict) : list (Z * V) := d.

(** [d.get(k)] / the lookup half of [d[k]]. *)
Fixpoint getitem (d : dict) (k : Z) : option V :=
  match d with
  | [] => None
  | (k', v) :: rest => if k =? k' then Some v else getitem rest k
  end.

(** [d[k] = v]: an existing key keeps its position, a new key goes last. *)
Fixpoint setitem (d : dict) (k : Z) (v : V) : dict :=
  match d with
  | [] => [(k, v)]
  | (k', v') :: rest =>
      if k =? k' then (k', v) :: rest else (k', v') :: setitem rest k v
  end.

(** [{k: v for k, v in kvs}] *)
Definition comprehension (kvs : list (Z * V)) : dict :=
  fold_left (fun d kv => setitem d (fst kv) (snd kv)) kvs [].

Definition mem (d : dict) (k : Z) : bool :=
  match getitem d k with Some _ => true | None => false end.
End Dict.
Arguments dict V : clear implicits.
End PyDict.
Import PyDict.

Definition CameraId : Type := Z.
Definition MultiFrameNumber : Type := Z.

(** ** shared_view_accumulator.py *)

Section Accumulator.
(** The detector's payload carried by a camera node output
    ([CharucoObservation] of skellytracker); the accumulator never looks
    inside it. *)
Variable Observation : Type.

Record CalibrationCameraNodeOutputData : Type := {
  can_see_target : bool;
  data : Observation
}.

Record TargetViewByCamera : Type := {
  multi_frame_number : MultiFrameNumber;
  views_by_camera : dict CalibrationCameraNodeOutputData
}.

Definition cameras_that_can_see_target (self : TargetViewByCamera) : list CameraId :=
  map fst (filter (fun kv => can_see_target (snd kv)) (items (views_by_camera self))).

Definition multiple_cameras_can_see_target (self : TargetViewByCamera) : bool :=
  (1 <? Z.of_nat (List.length (cameras_that_can_see_target self))).

Record SharedViewAccumulator : Type := {
  camera_ids : list CameraId;
  shared_views_by_frame : dict TargetViewByCamera
}.

Definition create (camera_ids : list CameraId) : SharedViewAccumulator :=
  {| camera_ids := camera_ids; shared_views_by_frame := [] |}.

(** [shared_view_count_by_camera[camera_id] += 1] *)
Definition increment (counts : dict Z) (camera_id : CameraId) : py (dict Z) :=
  match getitem counts camera_id with
  | None => Raise (KeyError camera_id)
  | Some n => Return (setitem counts camera_id (n + 1))
  end.

Definition count_frame (counts : dict Z) (shared_view_by_frame : TargetViewByCamera)
  : py (dict Z) :=
  if multiple_cameras_can_see_target shared_view_by_frame
  then for_each increment counts (cameras_that_can_see_target shared_view_by_frame)
  else Return counts.

Definition shared_view_count_by_camera (self : SharedViewAccumulator) : py (dict Z) :=
  let shared_view_count_by_camera :=
    comprehension (map (fun camera_id => (camera_id, 0)) (camera_ids self)) in
  for_each count_frame shared_view_count_by_camera
    (values (shared_views_by_frame self)).

Definition shared_target_views (self : SharedViewAccumulator) : list TargetViewByCamera :=
  filter multiple_cameras_can_see_target (values (shared_views_by_frame self)).

Definition receive_camera_node_output (self : SharedViewAccumulator)
    (multi_frame_number : MultiFrameNumber)
    (camera_node_output : dict CalibrationCameraNodeOutputData)
  : SharedViewAccumulator :=
  let cameras_that_can_see_target :=
    comprehension
      (filter (fun kv => can_see_target (snd kv)) (items camera_node_output)) in
  {| camera_ids := camera_ids self;
     shared_views_by_frame :=
       setitem (shared_views_by_frame self) multi_frame_number
         {| multi_frame_number := multi_frame_number;
            views_by_camera := cameras_that_can_see_target |} |}.

Definition all_cameras_have_min_shared_views (self : SharedViewAccumulator)
    (min_shared_views : Z) : py bool :=
  counts <- shared_view_count_by_camera self ;;
  Return (forallb (fun shared_views => min_shared_views <=? shared_views)
            (values counts)).

(** A delivery is one call of [receive_camera_node_output]. *)
Definition delivery : Type := MultiFrameNumber * dict CalibrationCameraNodeOutputData.

Definition deliver (self : SharedViewAccumulator) (d : delivery) : SharedViewAccumulator :=
  receive_camera_node_output self (fst d) (snd d).

Definition deliver_all (self : SharedViewAccumulator) (ds : list delivery)
  : SharedViewAccumulator :=
  fold_left deliver ds self.

End Accumulator.

Arguments can_see_target {Observation} _.
Arguments data {Observation} _.
Arguments multi_frame_number {Observation} _.
Arguments views_by_camera {Observation} _.
Arguments cameras_that_can_see_target {Observation} self.
Arguments multiple_cameras_can_see_target {Observation} self.
Arguments camera_ids {Observation} _.
Arguments shared_views_by_frame {Observation} _.
Arguments create {Observation} camera_ids.
Arguments count_frame {Observation} counts shared_view_by_frame.
Arguments shared_view_count_by_camera {Observation} self.
Arguments shared_target_views {Observation} self.
Arguments receive_camera_node_output {Observation} self multi_frame_number camera_node_output.
Arguments all_cameras_have_min_shared_views {Observation} self min_shared_views.
Arguments deliver {Observation} self d.
Arguments deliver_all {Observation} self ds.

(** ** positional_6dof.py *)

Module Pose.
Section Positional6DoF.
(** numpy arrays and the numpy / OpenCV operations the property calls are
    left abstract: the property is studied for every behaviour of them. *)
Variable ndarray : Type.
Variable np_zeros : list Z -> ndarray.
Variable scalar : Z -> ndarray.
Variable cv2_Rodrigues : ndarray -> py ndarray.
Variable flatten : ndarray -> py ndarray.

(** The three subscripts assigned to: [[:3, :3]], [[:3, 3]] and [[3, 3]]. *)
Inductive subscript : Type := UpperLeft3x3 | RightColumn3 | Cell33.
Variable assign : ndarray -> subscript -> ndarray -> py ndarray.

Record Positional6DoF : Type := {
  translation : ndarray;
  rotation : ndarray
}.

(** The data attributes of an instance: exactly the declared model fields. *)
Definition model_fields (self : Positional6DoF) : list (string * ndarray) :=
  [("translation"%string, translation self); ("rotation"%string, rotation self)].

(** [self.<name>] for a data attribute; an undeclared name ends in
    pydantic's [__getattr__], which raises [AttributeError]. *)
Definition getattr (self : Positional6DoF) (name : string) : py ndarray :=
  match find (fun field => String.eqb (fst field) name) (model_fields self) with
  | Some field => Return (snd field)
  | None => Raise (AttributeError name)
  end.

Definition transformation_matrix (self : Positional6DoF) : py ndarray :=
  let transformation_matrix := np_zeros [4; 4] in
  rotation_vector <- getattr self "rotation_vector" ;;
  rotation_matrix <- cv2_Rodrigues rotation_vector ;;
  transformation_matrix <- assign transformation_matrix UpperLeft3x3 rotation_matrix ;;
  translation_vector <- getattr self "translation_vector" ;;
  flat <- flatten translation_vector ;;
  transformation_matrix <- assign transformation_matrix RightColumn3 flat ;;
  transformation_matrix <- assign transformation_matrix Cell33 (scalar 1) ;;
  Return transformation_matrix.
End Positional6DoF.
End Pose.

(** ** calibration_camera_node.py *)

Module CameraNode.
Section Run.
Variable Image : Type.
Variable CharucoObservation : Type.
(** [charuco_tracker.process_image(frame.image, annotate_image=False)] *)
Variable process_image : Image -> py CharucoObservation.

Record CalibrationCameraNodeOutputData : Type := { data : CharucoObservation }.

(** What one pass of the [while] loop finds: the shutdown event already
    set, no new frame in the shared-memory slot, or a new frame. *)
Inductive poll : Type :=
| ShutdownIsSet
| NoNewFrame
| NewFrame (image : Image).

Inductive loop_end : Type :=
| StillPolling               (* the script of polls ran out inside the loop *)
| ConditionFalse             (* [shutdown_event.is_set()] *)
| BodyRaised (e : exception).

Fixpoint while_not_shutdown (polls : list poll)
    (output_queue : list CalibrationCameraNodeOutputData)
  : list CalibrationCameraNodeOutputData * loop_end :=
  match polls with
  | [] => (output_queue, StillPolling)
  | ShutdownIsSet :: _ => (output_queue, ConditionFalse)
  | NoNewFrame :: rest => while_not_shutdown rest output_queue
  | NewFrame image :: rest =>
      match process_image image with
      | Raise e => (output_queue, BodyRaised e)
      | Return observation =>
          while_not_shutdown rest (output_queue ++ [{| data := observation |}])
      end
  end.

Inductive log_record : Type :=
| Trace (message : string)
| LoggedException (e : exception).

Inductive outcome : Type :=
| Running
| Returned
| Raised (e : exception).

Record node : Type := {
  output_queue : list CalibrationCameraNodeOutputData;
  shutdown_event : bool;
  camera_ring_shm_closed : bool;
  log : list log_record;
  exit : outcome
}.

(** [CalibrationCameraNode._run]: [try] the loop, [except] logs and
    re-raises, [finally] sets the shutdown event and closes the handle. *)
Definition _run (polls : list poll) : node :=
  let started := Trace "processing node started" in
  let shutting_down := Trace "Shutting down camera processing node" in
  match while_not_shutdown polls [] with
  | (queue, StillPolling) =>
      {| output_queue := queue; shutdown_event := false;
         camera_ring_shm_closed := false; log := [started]; exit := Running |}
  | (queue, ConditionFalse) =>
      {| output_queue := queue; shutdown_event := true;
         camera_ring_shm_closed := true; log := [started; shutting_down];
         exit := Returned |}
  | (queue, BodyRaised e) =>
      {| output_queue := queue; shutdown_event := true;
         camera_ring_shm_closed := true;
         log := [started; LoggedException e; shutting_down];
         exit := Raised e |}
  end.
End Run.
Arguments ShutdownIsSet {Image}.
Arguments NoNewFrame {Image}.
Arguments NewFrame {Image} image.
Arguments data {CharucoObservation} _.
Arguments output_queue {CharucoObservation} _.
Arguments shutdown_event {CharucoObservation} _.
Arguments camera_ring_shm_closed {CharucoObservation} _.
Arguments log {CharucoObservation} _.
Arguments exit {CharucoObservation} _.
Arguments _run {Image CharucoObservation} process_image polls.
Arguments while_not_shutdown {Image CharucoObservation} process_image polls output_queue.
End CameraNode.


(** ** Specification vocabulary *)

(** The camera ids [shared_view_count_by_camera] increments, in the order
    it meets them: those of every multi-view entry. *)
Definition counted_cameras {Observation : Type}
    (views : list (TargetViewByCamera Observation)) : list CameraId :=
  flat_map (fun view =>
              if multiple_cameras_can_see_target view
              then cameras_that_can_see_target view else [])
           views.

(** [{camera_id: 0 for camera_id in self.camera_ids}] *)
Definition initial_counts (cameras : list CameraId) : dict Z :=
  comprehension (map (fun camera_id => (camera_id, 0)) cameras).

(** [counts] with every value raised by the number of times its key occurs
    in [cs]. *)
Definition tally (counts : dict Z) (cs : list CameraId) : dict Z :=
  map (fun kv => (fst kv, snd kv + Z.of_nat (count_occ Z.eq_dec cs (fst kv)))) counts.

(** The observation stored for camera [c] at multi-frame number [n]. *)
Definition stored_observation {Observation : Type}
    (self : SharedViewAccumulator Observation) (n : MultiFrameNumber) (c : CameraId)
  : option (CalibrationCameraNodeOutputData Observation) :=
  match getitem (shared_views_by_frame self) n with
  | Some view => getitem (views_by_camera view) c
  | None => None
  end.

(** The entry [receive_camera_node_output] stores for a delivery. *)
Definition entry_of {Observation : Type} (d : delivery Observation)
  : TargetViewByCamera Observation :=
  {| multi_frame_number := fst d;
     views_by_camera :=
       comprehension (filter (fun kv => can_see_target (snd kv)) (items (snd d))) |}.

(** The distinct elements of a list, each at its first occurrence. *)
Fixpoint first_occurrences (ks : list Z) : list Z :=
  match ks with
  | [] => []
  | k :: rest => k :: filter (fun k' => negb (k' =? k)) (first_occurrences rest)
  end.

(** The frame map is well formed: one binding per multi-frame number. *)
Definition well_formed {Observation : Type} (self : SharedViewAccumulator Observation) : Prop :=
  NoDup (keys (shared_views_by_frame self)).

(** Two accumulators over the same cameras whose frame maps agree at every
    multi-frame number (their insertion orders may differ). *)
Definition same_frames {Observation : Type} (a b : SharedViewAccumulator Observation) : Prop :=
  camera_ids a = camera_ids b /\
  forall n, getitem (shared_views_by_frame a) n = getitem (shared_views_by_frame b) n.

(** Whether the entry stored at multi-frame number [n] is a multi-view. *)
Definition multi_view_at {Observation : Type}
    (self : SharedViewAccumulator Observation) (n : MultiFrameNumber) : bool :=
  match getitem (shared_views_by_frame self) n with
  | Some view => multiple_cameras_can_see_target view
  | None => false
  end.

Definition absent (ks : list Z) (k : Z) : bool := negb (existsb (Z.eqb k) ks).

(** ** Scenarios *)

Definition camera_A : CameraId := 0.
Definition camera_B : CameraId := 1.
Definition camera_C : CameraId := 2.

(** The delivery for multi-frame number [n] in which every camera of
    [reporting] reports and exactly those of [seers] see the target. *)
Definition frame_report {Observation : Type}
    (payload : CameraId -> MultiFrameNumber -> Observation)
    (reporting seers : list CameraId) (n : MultiFrameNumber) : delivery Observation :=
  (n, comprehension
        (map (fun c => (c, {| can_see_target := existsb (Z.eqb c) seers;
                              data := payload c n |}))
             reporting)).

(** In how many multi-view frames both [c1] and [c2] see the target. *)
Definition pair_shared_views {Observation : Type}
    (self : SharedViewAccumulator Observation) (c1 c2 : CameraId) : Z :=
  Z.of_nat (List.length
    (filter (fun view =>
               existsb (Z.eqb c1) (cameras_that_can_see_target view) &&
               existsb (Z.eqb c2) (cameras_that_can_see_target view))
            (shared_target_views self))).

(** What a node has put on its output queue after the polls [polls], when
    none of them ends the loop. *)
Definition published {Image CharucoObservation : Type}
    (process_image : Image -> py CharucoObservation) (polls : list (CameraNode.poll Image))
  : list (CameraNode.CalibrationCameraNodeOutputData CharucoObservation) :=
  flat_map (fun p => match p with
                     | CameraNode.NewFrame image =>
                         match process_image image with
                         | Return observation => [CameraNode.Build_CalibrationCameraNodeOutputData _ observation]
                         | Raise _ => []
                         end
                     | _ => []
                     end) polls.

(** A poll that lets the loop go on: no shutdown, and the detector, if it
    runs, returns. *)
Definition goes_on {Image CharucoObservation : Type}
    (process_image : Image -> py CharucoObservation) (p : CameraNode.poll Image) : bool :=
  match p with
  | CameraNode.ShutdownIsSet => false
  | CameraNode.NoNewFrame => true
  | CameraNode.NewFrame image => negb (raises (process_image image))
  end.

(** A detector that cannot read image 0 and sees the target in every other
    image. *)
Definition flaky_detector (image : Z) : py bool :=
  if image =? 0 then Raise (Exception "image unreadable") else Return true.

(** Scenario payloads carry nothing. *)
Definition no_payload : CameraId -> MultiFrameNumber -> unit := fun _ _ => tt.

(** Frame [n] reported by cameras A, B, C with exactly [seers] seeing the
    target. *)
Definition report (seers : list CameraId) (n : MultiFrameNumber) : delivery unit :=
  frame_report no_payload [camera_A; camera_B; camera_C] seers n.

(** ** Vocabulary for further properties *)

(** In how many multi-view frames camera [c] sees the target. *)
Definition shared_views_of {Observation : Type}
    (self : SharedViewAccumulator Observation) (c : CameraId) : Z :=
  Z.of_nat (List.length
    (filter (fun view => existsb (Z.eqb c) (cameras_that_can_see_target view))
            (shared_target_views self))).

(** The sum of a dictionary's values. *)
Definition sum_values (counts : dict Z) : Z := fold_right Z.add 0 (values counts).

(** The last delivery of [ds] for multi-frame number [n]. *)
Definition last_delivery {Observation : Type} (ds : list (delivery Observation))
    (n : MultiFrameNumber) : option (delivery Observation) :=
  find (fun d => fst d =? n) (rev ds).

(** The polls a node gets through before the first one that ends its loop. *)
Fixpoint going_prefix {Image CharucoObservation : Type}
    (process_image : Image -> py CharucoObservation)
    (polls : list (CameraNode.poll Image)) : list (CameraNode.poll Image) :=
  match polls with
  | [] => []
  | p :: rest =>
      if goes_on process_image p then p :: going_prefix process_image rest else []
  end.

(** How many polls found a new frame. *)
Definition new_frames {Image : Type} (polls : list (CameraNode.poll Image)) : nat :=
  List.length (filter (fun p => match p with CameraNode.NewFrame _ => true | _ => false end)
                      polls).

(** Cameras A, B, C after frame 1 (seen by A and B) and frame 2 (seen by B
    and C). *)
Definition two_frames : SharedViewAccumulator unit :=
  deliver_all (create [camera_A; camera_B; camera_C])
    [report [camera_A; camera_B] 1; report [camera_B; camera_C] 2].
(** * Properties *)

(** ** The error monad *)

Lemma for_each_app {S A : Type} (body : S -> A -> py S) (xs ys : list A) (s : S) :
  for_each body s (xs ++ ys) = (s' <- for_each body s xs ;; for_each body s' ys).
Proof.
  revert s; induction xs as [|x xs IH]; intro s; simpl; [reflexivity|].
  destruct (body s x) as [s'|e]; simpl; [apply IH | reflexivity].
Qed.

(** ** Dictionaries *)

Section DictFacts.
Context {V : Type}.
Implicit Types (d : dict V) (k : Z) (v : V).

Lemma getitem_setitem d k v k' :
  getitem (setitem d k v) k' = if k' =? k then Some v else getitem d k'.
Proof.
  induction d as [|[k0 v0] d IH]; simpl.
  - reflexivity.
  - destruct (k =? k0) eqn:E; simpl.
    + apply Z.eqb_eq in E; subst k0.
      destruct (k' =? k); reflexivity.
    + rewrite IH. destruct (k' =? k0) eqn:E0; [|reflexivity].
      apply Z.eqb_eq in E0; subst k0.
      rewrite Z.eqb_sym in E. rewrite E. reflexivity.
Qed.

Lemma getitem_None d k : getitem d k = None <-> ~ In k (keys d).
Proof.
  induction d as [|[k0 v0] d IH]; simpl.
  - tauto.
  - destruct (k =? k0) eqn:E.
    + apply Z.eqb_eq in E. split; [discriminate | intros H; exfalso; apply H; auto].
    + apply Z.eqb_neq in E. rewrite IH. split; [intros H [H'|H']; auto | tauto].
Qed.

Lemma getitem_Some_In d k v : getitem d k = Some v -> In (k, v) d.
Proof.
  induction d as [|[k0 v0] d IH]; simpl; [discriminate|].
  destruct (k =? k0) eqn:E.
  - apply Z.eqb_eq in E. intros [= ->]. left; congruence.
  - auto.
Qed.

Lemma In_getitem d k v : NoDup (keys d) -> In (k, v) d -> getitem d k = Some v.
Proof.
  induction d as [|[k0 v0] d IH]; simpl; [tauto|].
  intros ND [H|H].
  - injection H as -> ->. rewrite Z.eqb_refl. reflexivity.
  - inversion ND as [|? ? Hk0 ND']; subst.
    destruct (k =? k0) eqn:E; [|auto].
    apply Z.eqb_eq in E; subst k0. exfalso. apply Hk0.
    change k with (fst (k, v)). apply in_map, H.
Qed.

Lemma mem_keys d k : mem d k = true <-> In k (keys d).
Proof.
  unfold mem. destruct (getitem d k) eqn:E.
  - split; [intros _ | reflexivity].
    apply getitem_Some_In in E. change k with (fst (k, v)). apply in_map, E.
  - apply getitem_None in E. split; [discriminate | tauto].
Qed.

Lemma setitem_present d k v :
  In k (keys d) -> keys (setitem d k v) = keys d.
Proof.
  induction d as [|[k0 v0] d IH]; simpl; [tauto|].
  intros H. destruct (k =? k0) eqn:E; simpl; [reflexivity|].
  apply Z.eqb_neq in E. f_equal. apply IH. destruct H; congruence.
Qed.

Lemma setitem_fresh d k v :
  ~ In k (keys d) -> setitem d k v = d ++ [(k, v)].
Proof.
  induction d as [|[k0 v0] d IH]; simpl; [reflexivity|].
  intros H. destruct (k =? k0) eqn:E.
  - apply Z.eqb_eq in E. exfalso; apply H; auto.
  - f_equal. apply IH. tauto.
Qed.

Lemma keys_setitem_incl d k v : incl (keys d) (keys (setitem d k v)).
Proof.
  destruct (in_dec Z.eq_dec k (keys d)) as [H|H].
  - rewrite setitem_present by exact H. apply incl_refl.
  - rewrite setitem_fresh by exact H. unfold keys. rewrite map_app.
    apply incl_appl, incl_refl.
Qed.

Lemma NoDup_keys_setitem d k v : NoDup (keys d) -> NoDup (keys (setitem d k v)).
Proof.
  intros ND. destruct (in_dec Z.eq_dec k (keys d)) as [H|H].
  - rewrite setitem_present by exact H. exact ND.
  - rewrite setitem_fresh by exact H. unfold keys. rewrite map_app. simpl.
    apply NoDup_app; [exact ND | repeat constructor; simpl; tauto |].
    intros a Ha [<-|[]]. exact (H Ha).
Qed.

Lemma setitem_same d k v : getitem d k = Some v -> setitem d k v = d.
Proof.
  induction d as [|[k0 v0] d IH]; simpl; [discriminate|].
  destruct (k =? k0) eqn:E.
  - intros [= ->]. reflexivity.
  - intros H. f_equal. auto.
Qed.

Lemma NoDup_keys_NoDup d : NoDup (keys d) -> NoDup d.
Proof. apply NoDup_map_inv. Qed.

(** Two well-formed dictionaries with the same lookups hold the same
    bindings, possibly in another order. *)
Lemma same_lookups_Permutation d1 d2 :
  NoDup (keys d1) -> NoDup (keys d2) ->
  (forall k, getitem d1 k = getitem d2 k) ->
  Permutation d1 d2.
Proof.
  intros N1 N2 H. apply NoDup_Permutation; auto using NoDup_keys_NoDup.
  intros [k v]. split; intros Hin.
  - apply getitem_Some_In. rewrite <- H. apply In_getitem; assumption.
  - apply getitem_Some_In. rewrite H. apply In_getitem; assumption.
Qed.

Lemma comprehension_fold (kvs : list (Z * V)) d :
  NoDup (keys d) ->
  let d' := fold_left (fun d kv => setitem d (fst kv) (snd kv)) kvs d in
  NoDup (keys d') /\
  (forall k, In k (keys d') <-> In k (keys d) \/ In k (map fst kvs)) /\
  (forall kv, In kv d' -> In kv d \/ In kv kvs).
Proof.
  revert d; induction kvs as [|[k v] kvs IH]; intros d ND; simpl.
  - repeat split; auto; tauto.
  - specialize (IH (setitem d k v) (NoDup_keys_setitem d k v ND)).
    simpl in IH. destruct IH as (IH1 & IH2 & IH3).
    split; [exact IH1|]. split.
    + intros k'. rewrite IH2. split.
      * intros [H|H]; [|tauto].
        assert (Hm := getitem_setitem d k v k').
        destruct (getitem_None (setitem d k v) k') as [_ Hn].
        destruct (Z.eqb_spec k' k) as [->|Hne]; [tauto|].
        left. destruct (in_dec Z.eq_dec k' (keys d)) as [Hd|Hd]; [exact Hd|].
        apply getitem_None in Hd. rewrite Hd in Hm. apply getitem_None in Hm. tauto.
      * intros [H|[H|H]]; [left; apply (keys_setitem_incl d k v), H | | tauto].
        subst k'. left. apply mem_keys. unfold mem.
        rewrite getitem_setitem, Z.eqb_refl. reflexivity.
    + intros kv Hin. destruct (IH3 kv Hin) as [H|H]; [|tauto].
      destruct kv as [k' v'].
      apply In_getitem in H; [|apply NoDup_keys_setitem, ND].
      rewrite getitem_setitem in H.
      destruct (Z.eqb_spec k' k) as [->|Hne].
      * injection H as <-. right; left; reflexivity.
      * left. apply getitem_Some_In, H.
Qed.

Lemma NoDup_keys_comprehension (kvs : list (Z * V)) : NoDup (keys (comprehension kvs)).
Proof. apply (comprehension_fold kvs []). constructor. Qed.

Lemma keys_comprehension (kvs : list (Z * V)) k :
  In k (keys (comprehension kvs)) <-> In k (map fst kvs).
Proof.
  destruct (comprehension_fold kvs [] (NoDup_nil _)) as (_ & H & _).
  unfold comprehension. rewrite H. simpl. tauto.
Qed.

Lemma In_comprehension (kvs : list (Z * V)) kv :
  In kv (comprehension kvs) -> In kv kvs.
Proof.
  destruct (comprehension_fold kvs [] (NoDup_nil _)) as (_ & _ & H).
  intros Hin. destruct (H kv Hin) as [[]|Hk]. exact Hk.
Qed.
End DictFacts.

(** ** Counting *)

Section Counting.

Lemma keys_tally counts cs : keys (tally counts cs) = keys counts.
Proof. unfold tally, keys. rewrite map_map. reflexivity. Qed.

Lemma tally_nil counts : tally counts [] = counts.
Proof.
  unfold tally. rewrite <- (map_id counts) at 2.
  apply map_ext. intros [k n]. simpl. f_equal. lia.
Qed.

Lemma tally_cons counts c cs n :
  NoDup (keys counts) -> getitem counts c = Some n ->
  tally (setitem counts c (n + 1)) cs = tally counts (c :: cs).
Proof.
  unfold tally. induction counts as [|[k m] counts IH]; simpl; [discriminate|].
  intros ND H. inversion ND as [|? ? Hk ND']; subst.
  destruct (c =? k) eqn:E.
  - apply Z.eqb_eq in E; subst k. injection H as ->. simpl.
    destruct (Z.eq_dec c c) as [_|Hc]; [|congruence].
    f_equal; [f_equal; lia|].
    apply map_ext_in. intros [k' n'] Hin. simpl.
    destruct (Z.eq_dec c k') as [->|_]; [|reflexivity].
    exfalso. apply Hk. change k' with (fst (k', n')). apply in_map, Hin.
  - apply Z.eqb_neq in E. simpl.
    destruct (Z.eq_dec c k) as [Hc|_]; [congruence|].
    f_equal. apply IH; assumption.
Qed.

Lemma tally_Permutation counts cs cs' :
  Permutation cs cs' -> tally counts cs = tally counts cs'.
Proof.
  intros P. unfold tally. apply map_ext. intros kv.
  rewrite (Permutation_count_occ Z.eq_dec cs cs') in P. rewrite P. reflexivity.
Qed.

(** The increments of a frame loop succeed exactly when every camera id
    met is a key, and then they add up to the tally. *)
Lemma for_each_increment_Return counts cs :
  NoDup (keys counts) ->
  Forall (fun c => In c (keys counts)) cs ->
  for_each increment counts cs = Return (tally counts cs).
Proof.
  intros ND H. revert counts ND H.
  induction cs as [|c cs IH]; intros counts ND H; simpl.
  - rewrite tally_nil. reflexivity.
  - inversion H as [|? ? Hc Hcs]; subst. unfold increment at 1.
    destruct (getitem counts c) as [n|] eqn:E.
    + simpl. rewrite IH.
      * f_equal. apply tally_cons; assumption.
      * apply NoDup_keys_setitem, ND.
      * rewrite setitem_present by exact Hc. exact Hcs.
    + apply getitem_None in E. tauto.
Qed.

Lemma for_each_increment_Raise counts cs :
  Exists (fun c => ~ In c (keys counts)) cs ->
  exists c, for_each increment counts cs = Raise (KeyError c) /\
            In c cs /\ ~ In c (keys counts).
Proof.
  revert counts. induction cs as [|c cs IH]; intros counts H; simpl.
  - inversion H.
  - unfold increment at 1. destruct (getitem counts c) as [n|] eqn:E.
    + simpl. assert (Hc : In c (keys counts)).
      { apply mem_keys. unfold mem. rewrite E. reflexivity. }
      inversion H as [? ? Hbad|? ? Hbad]; subst; [tauto|].
      destruct (IH (setitem counts c (n + 1))) as (c' & Hr & Hin & Hk).
      * rewrite setitem_present by exact Hc. exact Hbad.
      * exists c'. rewrite setitem_present in Hk by exact Hc. auto.
    + exists c. apply getitem_None in E. simpl. auto.
Qed.

Lemma all_keys_dec (counts : dict Z) cs :
  {Forall (fun c => In c (keys counts)) cs} +
  {Exists (fun c => ~ In c (keys counts)) cs}.
Proof.
  destruct (Forall_Exists_dec (fun c => In c (keys counts))
              (fun c => in_dec Z.eq_dec c (keys counts)) cs); auto.
Qed.

Lemma for_each_increment_Permutation counts cs cs' :
  NoDup (keys counts) -> Permutation cs cs' ->
  returned (for_each increment counts cs) = returned (for_each increment counts cs').
Proof.
  intros ND P. destruct (all_keys_dec counts cs) as [H|H].
  - rewrite !for_each_increment_Return; auto.
    + simpl. f_equal. apply tally_Permutation, P.
    + eapply Permutation_Forall; eassumption.
  - destruct (for_each_increment_Raise counts cs H) as (c & -> & _).
    destruct (for_each_increment_Raise counts cs') as (c' & -> & _); [|reflexivity].
    apply Exists_exists in H. destruct H as (x & Hx & Hbad).
    apply Exists_exists. exists x. split; [|exact Hbad].
    eapply Permutation_in; eassumption.
Qed.

Context {Observation : Type}.
Implicit Types (view : TargetViewByCamera Observation)
               (self acc : SharedViewAccumulator Observation).

Lemma for_each_count_frame counts (views : list (TargetViewByCamera Observation)) :
  for_each count_frame counts views = for_each increment counts (counted_cameras views).
Proof.
  revert counts. induction views as [|view views IH]; intros counts; simpl.
  - reflexivity.
  - rewrite for_each_app. unfold count_frame at 1.
    destruct (multiple_cameras_can_see_target view); simpl.
    + destruct (for_each increment counts (cameras_that_can_see_target view));
        simpl; [apply IH | reflexivity].
    + apply IH.
Qed.

Lemma counted_cameras_Permutation (views views' : list (TargetViewByCamera Observation)) :
  Permutation views views' ->
  Permutation (counted_cameras views) (counted_cameras views').
Proof. apply Permutation_flat_map. Qed.

Lemma keys_initial_counts cameras c :
  In c (keys (initial_counts cameras)) <-> In c cameras.
Proof.
  unfold initial_counts. rewrite keys_comprehension, map_map. simpl.
  rewrite map_id. tauto.
Qed.

Lemma shared_view_count_by_camera_unfold self :
  shared_view_count_by_camera self =
  for_each increment (initial_counts (camera_ids self))
    (counted_cameras (values (shared_views_by_frame self))).
Proof. unfold shared_view_count_by_camera. apply for_each_count_frame. Qed.

End Counting.

(** ** The accumulator's frame map *)

Section FrameMap.
Context {Observation : Type}.
Implicit Types (view : TargetViewByCamera Observation)
               (self acc a b c : SharedViewAccumulator Observation)
               (d : delivery Observation).

Lemma lookup_receive acc n output k :
  getitem (shared_views_by_frame (receive_camera_node_output acc n output)) k =
  if k =? n then Some (entry_of (n, output)) else getitem (shared_views_by_frame acc) k.
Proof. simpl. apply getitem_setitem. Qed.

Lemma camera_ids_deliver_all acc ds :
  camera_ids (deliver_all acc ds) = camera_ids acc.
Proof.
  revert acc; induction ds as [|d ds IH]; intro acc; simpl; [reflexivity|].
  exact (IH (deliver acc d)).
Qed.

Lemma well_formed_create cameras : well_formed (@create Observation cameras).
Proof. constructor. Qed.

Lemma well_formed_deliver acc d : well_formed acc -> well_formed (deliver acc d).
Proof. apply NoDup_keys_setitem. Qed.

Lemma well_formed_deliver_all acc ds :
  well_formed acc -> well_formed (deliver_all acc ds).
Proof.
  revert acc; induction ds as [|d ds IH]; intros acc H; simpl; [exact H|].
  apply IH, well_formed_deliver, H.
Qed.

Lemma same_frames_refl acc : same_frames acc acc.
Proof. split; reflexivity. Qed.

Lemma same_frames_trans a b c : same_frames a b -> same_frames b c -> same_frames a c.
Proof.
  intros [H1 H2] [H3 H4]. split; [congruence|]. intros n. rewrite H2. apply H4.
Qed.

Lemma same_frames_deliver a b d : same_frames a b -> same_frames (deliver a d) (deliver b d).
Proof.
  intros [H1 H2]. split; [exact H1|]. intros n. unfold deliver.
  rewrite !lookup_receive, H2. reflexivity.
Qed.

Lemma same_frames_deliver_all a b ds :
  same_frames a b -> same_frames (deliver_all a ds) (deliver_all b ds).
Proof.
  revert a b; induction ds as [|d ds IH]; intros a b H; simpl; [exact H|].
  apply IH, same_frames_deliver, H.
Qed.

(** Deliveries for two different multi-frame numbers commute. *)
Lemma deliver_swap acc d1 d2 :
  fst d1 <> fst d2 ->
  same_frames (deliver (deliver acc d1) d2) (deliver (deliver acc d2) d1).
Proof.
  intros Hne. split; [reflexivity|]. intros n. unfold deliver.
  rewrite !lookup_receive.
  destruct (Z.eqb_spec n (fst d2)) as [E2|E2], (Z.eqb_spec n (fst d1)) as [E1|E1];
    congruence.
Qed.

Lemma deliver_all_Permutation ds ds' :
  Permutation ds ds' -> NoDup (map fst ds) ->
  forall acc, same_frames (deliver_all acc ds) (deliver_all acc ds').
Proof.
  induction 1 as [|d ds ds' P IH|d1 d2 ds|ds ds' ds'' P1 IH1 P2 IH2]; intros ND acc.
  - apply same_frames_refl.
  - simpl. apply IH. inversion ND; assumption.
  - simpl. apply same_frames_deliver_all, deliver_swap.
    inversion ND as [|? ? Hin _]; subst. simpl in Hin. intros E. apply Hin. auto.
  - eapply same_frames_trans; [apply IH1, ND|]. apply IH2.
    eapply Permutation_NoDup; [|exact ND]. apply Permutation_map, P1.
Qed.

Lemma same_frames_values a b :
  well_formed a -> well_formed b -> same_frames a b ->
  Permutation (values (shared_views_by_frame a)) (values (shared_views_by_frame b)).
Proof.
  intros Wa Wb [_ H]. apply Permutation_map.
  apply same_lookups_Permutation; assumption.
Qed.

Lemma same_frames_counts a b :
  well_formed a -> well_formed b -> same_frames a b ->
  returned (shared_view_count_by_camera a) = returned (shared_view_count_by_camera b).
Proof.
  intros Wa Wb E. rewrite !shared_view_count_by_camera_unfold.
  destruct E as [Hc Hf]. rewrite <- Hc.
  apply for_each_increment_Permutation.
  - apply NoDup_keys_comprehension.
  - apply counted_cameras_Permutation, same_frames_values; try assumption.
    split; assumption.
Qed.

Lemma Permutation_filter_same {A : Type} (p : A -> bool) (l l' : list A) :
  Permutation l l' -> Permutation (filter p l) (filter p l').
Proof.
  induction 1 as [|x l l' _ IH|x y l|l l' l'' _ IH1 _ IH2]; simpl.
  - constructor.
  - destruct (p x); [constructor|]; exact IH.
  - destruct (p x), (p y); try reflexivity. apply perm_swap.
  - eapply perm_trans; eassumption.
Qed.

(** Reordering deliveries with distinct multi-frame numbers changes
    neither the counts nor the number of views a camera pair shares. *)
Lemma counts_Permutation acc ds ds' :
  well_formed acc -> NoDup (map fst ds) -> Permutation ds ds' ->
  returned (shared_view_count_by_camera (deliver_all acc ds)) =
  returned (shared_view_count_by_camera (deliver_all acc ds')).
Proof.
  intros W ND P. apply same_frames_counts.
  - apply well_formed_deliver_all, W.
  - apply well_formed_deliver_all, W.
  - apply deliver_all_Permutation; assumption.
Qed.

Lemma pair_shared_views_Permutation acc ds ds' (x y : CameraId) :
  well_formed acc -> NoDup (map fst ds) -> Permutation ds ds' ->
  pair_shared_views (deliver_all acc ds) x y =
  pair_shared_views (deliver_all acc ds') x y.
Proof.
  intros W ND P. unfold pair_shared_views, shared_target_views. f_equal.
  apply Permutation_length. do 2 apply Permutation_filter_same.
  apply same_frames_values.
  - apply well_formed_deliver_all, W.
  - apply well_formed_deliver_all, W.
  - apply deliver_all_Permutation; assumption.
Qed.

Lemma returned_Some {A : Type} (m : py A) (a : A) : returned m = Some a -> m = Return a.
Proof. destruct m; simpl; congruence. Qed.

End FrameMap.


(** ** What a reachable frame map stores *)

Section Stored.
Context {Observation : Type}.
Implicit Types (view : TargetViewByCamera Observation)
               (self acc : SharedViewAccumulator Observation)
               (d : delivery Observation).

Lemma In_setitem {V : Type} (m : dict V) k v kv :
  In kv (setitem m k v) -> In kv m \/ kv = (k, v).
Proof.
  induction m as [|[k0 v0] m IH]; simpl.
  - intros [H|[]]; auto.
  - destruct (k =? k0) eqn:E; simpl.
    + apply Z.eqb_eq in E; subst k0. intros [H|H]; auto.
    + intros [H|H]; auto. destruct (IH H); auto.
Qed.

Lemma In_deliver_all acc ds kv :
  In kv (shared_views_by_frame (deliver_all acc ds)) ->
  In kv (shared_views_by_frame acc) \/ exists d, In d ds /\ kv = (fst d, entry_of d).
Proof.
  revert acc; induction ds as [|d ds IH]; intros acc; simpl; [auto|].
  intros H. destruct (IH _ H) as [H'|(d' & Hd' & E)].
  - apply In_setitem in H'. destruct H' as [H'|H']; [auto|].
    right. exists d. destruct d; auto.
  - right. exists d'. auto.
Qed.

Lemma entry_of_only_visible d :
  Forall (fun o => can_see_target o = true) (values (views_by_camera (entry_of d))).
Proof.
  apply Forall_forall. intros o Ho. apply in_map_iff in Ho.
  destruct Ho as ([c o'] & <- & Hin). apply In_comprehension in Hin.
  apply filter_In in Hin. tauto.
Qed.

Lemma filter_all {A : Type} (p : A -> bool) (l : list A) :
  Forall (fun x => p x = true) l -> filter p l = l.
Proof.
  induction 1 as [|x l Hx _ IH]; simpl; [reflexivity|]. rewrite Hx, IH. reflexivity.
Qed.

Lemma only_visible_cameras view :
  Forall (fun o => can_see_target o = true) (values (views_by_camera view)) ->
  cameras_that_can_see_target view = keys (views_by_camera view).
Proof.
  intros H. unfold cameras_that_can_see_target, items, keys. rewrite filter_all; [reflexivity|].
  unfold values in H. rewrite Forall_map in H. exact H.
Qed.

(** Every entry of a frame map built by deliveries is the entry of one of
    them, stored under that delivery's multi-frame number. *)
Lemma reachable_entries cameras ds kv :
  In kv (shared_views_by_frame (deliver_all (@create Observation cameras) ds)) ->
  exists d, In d ds /\ kv = (fst d, entry_of d).
Proof. intros H. apply In_deliver_all in H. destruct H as [[]|H]; exact H. Qed.

Lemma reachable_cameras cameras ds view :
  In view (values (shared_views_by_frame (deliver_all (@create Observation cameras) ds))) ->
  cameras_that_can_see_target view = keys (views_by_camera view).
Proof.
  intros H. apply in_map_iff in H. destruct H as (kv & <- & Hin).
  apply reachable_entries in Hin. destruct Hin as (d & _ & ->). simpl snd.
  apply only_visible_cameras, entry_of_only_visible.
Qed.

End Stored.

(** ** Iteration order of the frame map *)

Section Order.
Context {Observation : Type}.
Implicit Types (view : TargetViewByCamera Observation)
               (self acc : SharedViewAccumulator Observation)
               (d : delivery Observation).

Lemma absent_true ks k : absent ks k = true <-> ~ In k ks.
Proof.
  unfold absent. rewrite negb_true_iff. split.
  - intros H Hin. assert (existsb (Z.eqb k) ks = true); [|congruence].
    apply existsb_exists. exists k. split; [exact Hin | apply Z.eqb_refl].
  - intros H. destruct (existsb (Z.eqb k) ks) eqn:E; [|reflexivity].
    apply existsb_exists in E. destruct E as (x & Hx & Hk).
    apply Z.eqb_eq in Hk. subst x. tauto.
Qed.

Lemma filter_twice {A : Type} (p q : A -> bool) (l : list A) :
  filter p (filter q l) = filter (fun x => q x && p x) l.
Proof.
  induction l as [|x l IH]; simpl; [reflexivity|].
  destruct (q x); simpl; [destruct (p x)|]; rewrite IH; reflexivity.
Qed.

Lemma keys_deliver_all acc ds :
  keys (shared_views_by_frame (deliver_all acc ds)) =
  keys (shared_views_by_frame acc) ++
  filter (absent (keys (shared_views_by_frame acc))) (first_occurrences (map fst ds)).
Proof.
  revert acc; induction ds as [|d ds IH]; intros acc; simpl.
  - rewrite app_nil_r. reflexivity.
  - change (fold_left deliver ds (deliver acc d)) with (deliver_all (deliver acc d) ds).
    rewrite IH. set (K := keys (shared_views_by_frame acc)).
    set (FO := first_occurrences (map fst ds)).
    unfold deliver at 1 2. simpl shared_views_by_frame.
    destruct (absent K (fst d)) eqn:E.
    + assert (Hn : ~ In (fst d) K) by (apply absent_true; exact E).
      rewrite setitem_fresh by exact Hn. unfold keys at 1 2. rewrite map_app. simpl.
      fold (keys (shared_views_by_frame acc)). fold K.
      rewrite <- app_assoc. simpl. f_equal. f_equal.
      rewrite filter_twice. apply filter_ext. intros k.
      unfold absent. rewrite existsb_app. simpl. rewrite orb_false_r.
      rewrite negb_orb. apply andb_comm.
    + assert (Hin : In (fst d) K).
      { destruct (in_dec Z.eq_dec (fst d) K) as [H|H]; [exact H|].
        apply absent_true in H. congruence. }
      rewrite setitem_present by exact Hin. fold K. f_equal.
      rewrite filter_twice. apply filter_ext. intros k.
      destruct (Z.eqb_spec k (fst d)) as [->|_]; simpl; [exact E | reflexivity].
Qed.

Lemma keys_reachable cameras ds :
  keys (shared_views_by_frame (deliver_all (@create Observation cameras) ds)) =
  first_occurrences (map fst ds).
Proof. rewrite keys_deliver_all. simpl. apply filter_all, Forall_forall. reflexivity. Qed.

Lemma In_first_occurrences ks k : In k (first_occurrences ks) -> In k ks.
Proof.
  revert k; induction ks as [|k0 ks IH]; intros k; simpl; [tauto|].
  intros [H|H]; [auto|]. apply filter_In in H. right. apply IH, H.
Qed.

Lemma StronglySorted_filter {A : Type} (R : A -> A -> Prop) (p : A -> bool) (l : list A) :
  StronglySorted R l -> StronglySorted R (filter p l).
Proof.
  induction 1 as [|x l _ IH Hx]; simpl; [constructor|].
  destruct (p x); [|exact IH]. constructor; [exact IH|].
  apply Forall_forall. intros y Hy. apply filter_In in Hy.
  rewrite Forall_forall in Hx. apply Hx, Hy.
Qed.

Lemma first_occurrences_sorted ks :
  StronglySorted Z.le ks -> StronglySorted Z.lt (first_occurrences ks).
Proof.
  induction 1 as [|k ks _ IH Hk]; simpl; constructor.
  - apply StronglySorted_filter, IH.
  - apply Forall_forall. intros x Hx. apply filter_In in Hx. destruct Hx as [Hx Hne].
    apply In_first_occurrences in Hx. rewrite Forall_forall in Hk.
    specialize (Hk x Hx). apply negb_true_iff, Z.eqb_neq in Hne. lia.
Qed.

(** The frame numbers of the multi-view entries, read off the keys. *)
Lemma multi_view_numbers (m : dict (TargetViewByCamera Observation)) :
  NoDup (keys m) ->
  Forall (fun kv => multi_frame_number (snd kv) = fst kv) m ->
  map multi_frame_number (filter multiple_cameras_can_see_target (values m)) =
  filter (fun n => match getitem m n with
                   | Some view => multiple_cameras_can_see_target view
                   | None => false
                   end) (keys m).
Proof.
  induction m as [|[k v] m IH]; intros ND Hm; simpl; [reflexivity|].
  inversion ND as [|? ? Hk ND']; subst. inversion Hm as [|? ? Hv Hm']; subst.
  simpl in Hv. rewrite Z.eqb_refl.
  assert (T : map multi_frame_number (filter multiple_cameras_can_see_target (values m)) =
              filter (fun n => match (if n =? k then Some v else getitem m n) with
                               | Some view => multiple_cameras_can_see_target view
                               | None => false
                               end) (keys m)).
  { rewrite IH by assumption. apply filter_ext_in. intros n Hn.
    destruct (Z.eqb_spec n k) as [->|_]; [tauto | reflexivity]. }
  destruct (multiple_cameras_can_see_target v); simpl;
    [f_equal; [exact Hv | exact T] | exact T].
Qed.

Lemma reachable_frame_numbers cameras ds :
  Forall (fun kv => multi_frame_number (snd kv) = fst kv)
         (shared_views_by_frame (deliver_all (@create Observation cameras) ds)).
Proof.
  apply Forall_forall. intros kv H. apply reachable_entries in H.
  destruct H as (d & _ & ->). reflexivity.
Qed.

End Order.
(** ** Claims *)

Section Claims.
Context {Observation : Type}.
Implicit Types (view : TargetViewByCamera Observation)
               (self acc : SharedViewAccumulator Observation)
               (d : delivery Observation).

(** C1.  Order-independence of accumulation.  After any earlier history
    [before], deliveries [ds] with pairwise distinct multi-frame numbers
    give the same value of [shared_view_count_by_camera] in every order
    [ds'] of delivery: either the same dictionary is returned, or the
    property raises [KeyError] in both orders (the key reported may then
    differ, since it is the first unknown camera id met). *)
Theorem shared_view_count_order_independent
    (cameras : list CameraId) (before ds ds' : list (delivery Observation)) :
  NoDup (map fst ds) ->
  Permutation ds ds' ->
  returned (shared_view_count_by_camera (deliver_all (deliver_all (create cameras) before) ds)) =
  returned (shared_view_count_by_camera (deliver_all (deliver_all (create cameras) before) ds')).
Proof.
  intros ND P. apply counts_Permutation; [|exact ND|exact P].
  apply well_formed_deliver_all, well_formed_create.
Qed.

(** C2 (amended).  [receive_camera_node_output] binds its multi-frame
    number to the entry built from the delivered dictionary alone, so an
    earlier entry for that number is replaced as a whole; the entry of
    every other multi-frame number is untouched, and no multi-frame
    number ever leaves the frame map. *)
Theorem receive_replaces_one_frame
    acc (n : MultiFrameNumber) (output : dict (CalibrationCameraNodeOutputData Observation)) :
  let acc' := receive_camera_node_output acc n output in
  (forall k, getitem (shared_views_by_frame acc') k =
             if k =? n then Some (entry_of (n, output))
             else getitem (shared_views_by_frame acc) k) /\
  (forall k c, stored_observation acc' k c =
               if k =? n
               then getitem (comprehension
                      (filter (fun kv => can_see_target (snd kv)) (items output))) c
               else stored_observation acc k c) /\
  incl (keys (shared_views_by_frame acc)) (keys (shared_views_by_frame acc')) /\
  camera_ids acc' = camera_ids acc.
Proof.
  intros acc'. split; [|split; [|split]].
  - intros k. apply lookup_receive.
  - intros k c. unfold stored_observation, acc'. rewrite lookup_receive.
    destruct (k =? n); reflexivity.
  - apply keys_setitem_incl.
  - reflexivity.
Qed.

(** C7.  Idempotence of repeated delivery.  Once [output] has been
    delivered for multi-frame number [n], and whatever was delivered for
    other multi-frame numbers in between, delivering the same [output] for
    [n] again changes neither the accumulator nor
    [shared_view_count_by_camera]; and the last write wins: after any
    delivery for [n] the entry at [n] is the one built from it. *)
Theorem repeated_delivery_idempotent
    acc (n : MultiFrameNumber) (output : dict (CalibrationCameraNodeOutputData Observation))
    (between : list (delivery Observation)) :
  Forall (fun d => fst d <> n) between ->
  let acc1 := deliver_all (receive_camera_node_output acc n output) between in
  let acc2 := receive_camera_node_output acc1 n output in
  acc2 = acc1 /\
  shared_view_count_by_camera acc2 = shared_view_count_by_camera acc1 /\
  forall output', getitem (shared_views_by_frame
                             (receive_camera_node_output acc1 n output')) n =
                  Some (entry_of (n, output')).
Proof.
  intros Hb acc1 acc2.
  assert (L : getitem (shared_views_by_frame acc1) n = Some (entry_of (n, output))).
  { unfold acc1. clear acc1 acc2.
    generalize (lookup_receive acc n output n). rewrite Z.eqb_refl.
    generalize (receive_camera_node_output acc n output). intros a.
    revert a. induction Hb as [|d ds Hd _ IH]; intros a Ha; simpl; [exact Ha|].
    apply IH. unfold deliver. rewrite lookup_receive.
    destruct (Z.eqb_spec n (fst d)) as [E|_]; [congruence | exact Ha]. }
  assert (E : acc2 = acc1).
  { unfold acc2, receive_camera_node_output.
    change {| multi_frame_number := n;
              views_by_camera := comprehension
                (filter (fun kv => can_see_target (snd kv)) (items output)) |}
      with (entry_of (n, output)).
    rewrite (setitem_same _ _ _ L). destruct acc1; reflexivity. }
  split; [exact E|]. split; [rewrite E; reflexivity|].
  intros output'. rewrite lookup_receive, Z.eqb_refl. reflexivity.
Qed.

(** C8.  Only observations that see the target are stored: in every
    entry of a frame map built by [receive_camera_node_output], each
    stored observation has [can_see_target] true, and so
    [cameras_that_can_see_target] is the whole key set of
    [views_by_camera]. *)
Theorem stored_views_all_see_target
    (cameras : list CameraId) (ds : list (delivery Observation)) :
  Forall (fun view =>
            Forall (fun o => can_see_target o = true) (values (views_by_camera view)) /\
            cameras_that_can_see_target view = keys (views_by_camera view))
         (values (shared_views_by_frame (deliver_all (create cameras) ds))).
Proof.
  apply Forall_forall. intros view Hin.
  split; [|eapply reachable_cameras; eassumption].
  apply in_map_iff in Hin. destruct Hin as (kv & <- & Hin).
  apply reachable_entries in Hin. destruct Hin as (d & _ & ->).
  apply entry_of_only_visible.
Qed.

(** C9.  [shared_view_count_by_camera] is partial.  On a frame map built
    by deliveries it raises [KeyError] exactly when some stored
    multi-view entry holds a camera id outside [camera_ids]; when every
    stored observation's camera id is in [camera_ids] it returns a
    dictionary. *)
Theorem shared_view_count_partial
    (cameras : list CameraId) (ds : list (delivery Observation)) :
  let acc := deliver_all (create cameras) ds in
  ((exists view c,
       In view (values (shared_views_by_frame acc)) /\
       multiple_cameras_can_see_target view = true /\
       In c (keys (views_by_camera view)) /\ ~ In c (camera_ids acc)) <->
   (exists c, shared_view_count_by_camera acc = Raise (KeyError c))) /\
  ((forall view c,
       In view (values (shared_views_by_frame acc)) ->
       In c (keys (views_by_camera view)) -> In c (camera_ids acc)) ->
   exists counts, shared_view_count_by_camera acc = Return counts).
Proof.
  intros acc.
  assert (Hcams : forall view, In view (values (shared_views_by_frame acc)) ->
                    cameras_that_can_see_target view = keys (views_by_camera view))
    by (intros view; apply reachable_cameras).
  rewrite shared_view_count_by_camera_unfold.
  set (counts0 := initial_counts (camera_ids acc)).
  set (cs := counted_cameras (values (shared_views_by_frame acc))).
  assert (Hcs : forall c, In c cs <->
            exists view, In view (values (shared_views_by_frame acc)) /\
              multiple_cameras_can_see_target view = true /\
              In c (keys (views_by_camera view))).
  { intros c. unfold cs, counted_cameras. rewrite in_flat_map. split.
    - intros (view & Hv & Hc). exists view.
      destruct (multiple_cameras_can_see_target view); [|destruct Hc].
      rewrite <- (Hcams view Hv). auto.
    - intros (view & Hv & Hm & Hc). exists view. rewrite Hm, (Hcams view Hv). auto. }
  split; [split|].
  - intros (view & c & Hv & Hm & Hc & Hbad).
    destruct (for_each_increment_Raise counts0 cs) as (c' & Hr & _).
    + apply Exists_exists. exists c. split.
      * apply Hcs. exists view. auto.
      * unfold counts0. rewrite keys_initial_counts. exact Hbad.
    + exists c'. exact Hr.
  - intros (c & Hr). destruct (all_keys_dec counts0 cs) as [H|H].
    + rewrite for_each_increment_Return in Hr; [discriminate| |exact H].
      apply NoDup_keys_comprehension.
    + apply Exists_exists in H. destruct H as (c' & Hin & Hbad).
      apply Hcs in Hin. destruct Hin as (view & Hv & Hm & Hc).
      exists view, c'. unfold counts0 in Hbad. rewrite keys_initial_counts in Hbad. auto.
  - intros Hall. exists (tally counts0 cs). apply for_each_increment_Return.
    + apply NoDup_keys_comprehension.
    + apply Forall_forall. intros c Hc. unfold counts0. rewrite keys_initial_counts.
      apply Hcs in Hc. destruct Hc as (view & Hv & _ & Hc). eauto.
Qed.

(** C4 (amended).  [shared_target_views] returns exactly the stored
    entries whose multi-view status is true, in the order in which their
    multi-frame numbers were first delivered; that order is ascending
    when the deliveries arrive by ascending multi-frame number. *)
Theorem shared_target_views_first_delivery_order
    (cameras : list CameraId) (ds : list (delivery Observation)) :
  let acc := deliver_all (create cameras) ds in
  (forall view,
      In view (shared_target_views acc) <->
      In view (values (shared_views_by_frame acc)) /\
      multiple_cameras_can_see_target view = true) /\
  map multi_frame_number (shared_target_views acc) =
    filter (multi_view_at acc) (first_occurrences (map fst ds)) /\
  (StronglySorted Z.le (map fst ds) ->
   StronglySorted Z.lt (map multi_frame_number (shared_target_views acc))).
Proof.
  intros acc.
  assert (E : map multi_frame_number (shared_target_views acc) =
              filter (multi_view_at acc) (first_occurrences (map fst ds))).
  { unfold shared_target_views. rewrite multi_view_numbers.
    - unfold acc. rewrite keys_reachable. reflexivity.
    - apply well_formed_deliver_all, well_formed_create.
    - apply reachable_frame_numbers. }
  split; [|split].
  - intros view. unfold shared_target_views. apply filter_In.
  - exact E.
  - intros S. rewrite E. apply StronglySorted_filter, first_occurrences_sorted, S.
Qed.

Lemma distinct_frames (payload : CameraId -> MultiFrameNumber -> Observation)
    (reporting : list CameraId) :
  NoDup (map fst (map (frame_report payload reporting [camera_A; camera_B]) [1; 2; 3])).
Proof. simpl. repeat (constructor; [simpl; intuition discriminate|]). constructor. Qed.

(** C5.  Cameras A, B, C; A and B see the target in frames 1, 2, 3 and C
    in none (whether C reports that it cannot see it, or does not report
    at all), the three frames being delivered in any order [ds]: the
    counts are {A: 3, B: 3, C: 0} and
    [all_cameras_have_min_shared_views 1] is false. *)
Theorem two_cameras_share_three_frames
    (payload : CameraId -> MultiFrameNumber -> Observation)
    (c_reports : bool) (ds : list (delivery Observation)) :
  let reporting := camera_A :: camera_B :: (if c_reports then [camera_C] else []) in
  Permutation (map (frame_report payload reporting [camera_A; camera_B]) [1; 2; 3]) ds ->
  let acc := deliver_all (create [camera_A; camera_B; camera_C]) ds in
  shared_view_count_by_camera acc =
    Return [(camera_A, 3); (camera_B, 3); (camera_C, 0)] /\
  all_cameras_have_min_shared_views acc 1 = Return false.
Proof.
  intros reporting P acc.
  assert (E : shared_view_count_by_camera acc =
              Return [(camera_A, 3); (camera_B, 3); (camera_C, 0)]).
  { apply returned_Some. unfold acc.
    rewrite <- (counts_Permutation _ _ _ (well_formed_create _) (distinct_frames _ _) P).
    unfold reporting. destruct c_reports; reflexivity. }
  split; [exact E|]. unfold all_cameras_have_min_shared_views. rewrite E. reflexivity.
Qed.

(** C6.  Cameras A, B, C; exactly A and B see the target in frames 1, 2,
    exactly B and C in frames 3, 4, exactly A and C in frames 5, 6, the
    six frames being delivered in any order [ds]: every camera's count is
    4 and [all_cameras_have_min_shared_views 2] is true, although each
    pair of cameras shares only 2 frames. *)
Theorem pairwise_coverage_gap
    (payload : CameraId -> MultiFrameNumber -> Observation)
    (ds : list (delivery Observation)) :
  let cameras := [camera_A; camera_B; camera_C] in
  Permutation
    (map (fun seers_n => frame_report payload cameras (fst seers_n) (snd seers_n))
         [([camera_A; camera_B], 1); ([camera_A; camera_B], 2);
          ([camera_B; camera_C], 3); ([camera_B; camera_C], 4);
          ([camera_A; camera_C], 5); ([camera_A; camera_C], 6)])
    ds ->
  let acc := deliver_all (create cameras) ds in
  shared_view_count_by_camera acc =
    Return [(camera_A, 4); (camera_B, 4); (camera_C, 4)] /\
  all_cameras_have_min_shared_views acc 2 = Return true /\
  pair_shared_views acc camera_A camera_B = 2 /\
  pair_shared_views acc camera_B camera_C = 2 /\
  pair_shared_views acc camera_A camera_C = 2.
Proof.
  intros cameras P acc.
  assert (ND : NoDup (map fst
            (map (fun seers_n => frame_report payload cameras (fst seers_n) (snd seers_n))
               [([camera_A; camera_B], 1); ([camera_A; camera_B], 2);
                ([camera_B; camera_C], 3); ([camera_B; camera_C], 4);
                ([camera_A; camera_C], 5); ([camera_A; camera_C], 6)]))).
  { simpl. repeat (constructor; [simpl; intuition discriminate|]). constructor. }
  assert (E : shared_view_count_by_camera acc =
              Return [(camera_A, 4); (camera_B, 4); (camera_C, 4)]).
  { apply returned_Some. unfold acc.
    rewrite <- (counts_Permutation _ _ _ (well_formed_create _) ND P). reflexivity. }
  split; [exact E|].
  split; [unfold all_cameras_have_min_shared_views; rewrite E; reflexivity|].
  unfold acc.
  rewrite <- !(pair_shared_views_Permutation _ _ _ _ _ (well_formed_create _) ND P).
  repeat split; reflexivity.
Qed.

End Claims.

(** ** The camera node *)

Section NodeClaims.
Import CameraNode.
Context {Image CharucoObservation : Type}.
Variable process_image : Image -> py CharucoObservation.

Lemma while_not_shutdown_goes_on (before rest : list (poll Image)) queue :
  forallb (goes_on process_image) before = true ->
  while_not_shutdown process_image (before ++ rest) queue =
  while_not_shutdown process_image rest (queue ++ published process_image before).
Proof.
  revert queue. induction before as [|p before IH]; intros queue H; simpl.
  - rewrite app_nil_r. reflexivity.
  - simpl in H. apply andb_true_iff in H. destruct H as [Hp Hb].
    destruct p as [| |image]; simpl in *; [discriminate | auto |].
    destruct (process_image image) as [observation|e]; simpl in *; [|discriminate].
    rewrite IH by exact Hb. rewrite <- app_assoc. reflexivity.
Qed.

(** C3 (amended).  When the target detector raises for a frame, the node
    logs the exception and re-raises it: the loop ends there, nothing is
    published for that frame or for any later one, and on the way out the
    node sets the shared shutdown event and closes its shared-memory
    handle. *)
Theorem detector_exception_ends_node
    (before after : list (poll Image)) (image : Image) (e : exception) :
  forallb (goes_on process_image) before = true ->
  process_image image = Raise e ->
  let node := _run process_image (before ++ NewFrame image :: after) in
  exit node = Raised e /\
  output_queue node = published process_image before /\
  shutdown_event node = true /\
  camera_ring_shm_closed node = true /\
  In (LoggedException e) (log node).
Proof.
  intros Hb He node. unfold node, _run.
  rewrite while_not_shutdown_goes_on by exact Hb. simpl. rewrite He. simpl.
  repeat split; auto.
Qed.

End NodeClaims.

(** ** The 6-DoF pose *)

Section PoseClaims.
Import Pose.
Context {ndarray : Type}.
Variables (np_zeros : list Z -> ndarray) (scalar : Z -> ndarray)
          (cv2_Rodrigues : ndarray -> py ndarray) (flatten : ndarray -> py ndarray)
          (assign : ndarray -> subscript -> ndarray -> py ndarray).

(** C10.  For every pose, and whatever numpy and OpenCV compute,
    [transformation_matrix] raises [AttributeError] and returns no
    matrix: its first attribute read is [rotation_vector], while the
    declared fields, which do resolve, are [rotation] and
    [translation]. *)
Theorem transformation_matrix_raises (self : Positional6DoF ndarray) :
  transformation_matrix ndarray np_zeros scalar cv2_Rodrigues flatten assign self =
    Raise (AttributeError "rotation_vector") /\
  getattr ndarray self "rotation" = Return (rotation ndarray self) /\
  getattr ndarray self "translation" = Return (translation ndarray self) /\
  getattr ndarray self "translation_vector" = Raise (AttributeError "translation_vector").
Proof. repeat split; reflexivity. Qed.

End PoseClaims.

(** ** Instances and counterexamples *)

(** C1 at work: frames 1 and 2 delivered in both orders, after an earlier
    delivery for frame 1. *)
Lemma shared_view_count_order_independent_witness :
  NoDup (map fst [report [camera_A; camera_B] 1; report [camera_B; camera_C] 2]) /\
  Permutation [report [camera_A; camera_B] 1; report [camera_B; camera_C] 2]
              [report [camera_B; camera_C] 2; report [camera_A; camera_B] 1] /\
  returned (shared_view_count_by_camera
              (deliver_all (deliver_all (create [camera_A; camera_B; camera_C])
                                        [report [camera_A; camera_C] 1])
                 [report [camera_A; camera_B] 1; report [camera_B; camera_C] 2])) =
  returned (shared_view_count_by_camera
              (deliver_all (deliver_all (create [camera_A; camera_B; camera_C])
                                        [report [camera_A; camera_C] 1])
                 [report [camera_B; camera_C] 2; report [camera_A; camera_B] 1])).
Proof.
  assert (ND : NoDup (map fst [report [camera_A; camera_B] 1;
                               report [camera_B; camera_C] 2])).
  { simpl. constructor; [|constructor; [|constructor]]; simpl; [|tauto].
    intros [H|[]]; discriminate H. }
  split; [exact ND|]. split; [apply perm_swap|].
  apply shared_view_count_order_independent; [exact ND | apply perm_swap].
Defined.

(** C2 as stated fails: the observation stored for camera B at frame 1 is
    gone after a second delivery for frame 1 that does not contain B. *)
Lemma stored_observation_removed :
  let acc := receive_camera_node_output (create [camera_A; camera_B]) 1
               (snd (frame_report no_payload [camera_A; camera_B] [camera_A; camera_B] 1)) in
  let acc' := receive_camera_node_output acc 1
               (snd (frame_report no_payload [camera_A] [camera_A] 1)) in
  stored_observation acc 1 camera_B = Some {| can_see_target := true; data := tt |} /\
  stored_observation acc' 1 camera_B = None.
Proof. split; reflexivity. Qed.

(** C3 as stated fails: the detector raises on the first of two frames; the
    node does not go on to the second one but ends with the exception,
    having published nothing and set the shutdown event. *)
Lemma detector_failure_is_fatal :
  let node := CameraNode._run flaky_detector
                [CameraNode.NewFrame 0; CameraNode.NewFrame 1] in
  CameraNode.exit node = CameraNode.Raised (Exception "image unreadable") /\
  CameraNode.output_queue node = [] /\
  CameraNode.shutdown_event node = true.
Proof. repeat split; reflexivity. Qed.

(** C3 (amended) at work: one idle poll and one good frame, then the
    unreadable image, then a frame that is never processed. *)
Lemma detector_exception_ends_node_witness :
  forallb (goes_on flaky_detector) [CameraNode.NoNewFrame; CameraNode.NewFrame 1] = true /\
  flaky_detector 0 = Raise (Exception "image unreadable") /\
  let node := CameraNode._run flaky_detector
                ([CameraNode.NoNewFrame; CameraNode.NewFrame 1] ++
                 CameraNode.NewFrame 0 :: [CameraNode.NewFrame 2]) in
  CameraNode.exit node = CameraNode.Raised (Exception "image unreadable") /\
  CameraNode.output_queue node =
    published flaky_detector [CameraNode.NoNewFrame; CameraNode.NewFrame 1] /\
  CameraNode.shutdown_event node = true /\
  CameraNode.camera_ring_shm_closed node = true /\
  In (CameraNode.LoggedException (Exception "image unreadable")) (CameraNode.log node).
Proof.
  split; [reflexivity|]. split; [reflexivity|].
  apply (detector_exception_ends_node flaky_detector); reflexivity.
Defined.

(** C4 as stated fails: frame 2 arrives before frame 1, both multi-views,
    and [shared_target_views] lists frame 2 first. *)
Lemma shared_target_views_not_sorted :
  let acc := deliver_all (create [camera_A; camera_B; camera_C])
               [report [camera_A; camera_B] 2; report [camera_A; camera_B] 1] in
  map multi_frame_number (shared_target_views acc) = [2; 1] /\
  ~ Sorted Z.le (map multi_frame_number (shared_target_views acc)).
Proof.
  split; [reflexivity|]. intros S. simpl in S.
  inversion S as [|? ? _ H]; subst. inversion H as [|? ? Hle]; subst. lia.
Qed.

(** C4 (amended) at work: frames 1, 2, 3 delivered in ascending order. *)
Lemma shared_target_views_first_delivery_order_witness :
  StronglySorted Z.le
    (map fst [report [camera_A; camera_B] 1; report [camera_C] 2;
              report [camera_B; camera_C] 3]) /\
  StronglySorted Z.lt
    (map multi_frame_number
       (shared_target_views
          (deliver_all (create [camera_A; camera_B; camera_C])
             [report [camera_A; camera_B] 1; report [camera_C] 2;
              report [camera_B; camera_C] 3]))).
Proof.
  assert (S : StronglySorted Z.le
                (map fst [report [camera_A; camera_B] 1; report [camera_C] 2;
                          report [camera_B; camera_C] 3])).
  { simpl. repeat constructor; lia. }
  split; [exact S|].
  apply (shared_target_views_first_delivery_order
           [camera_A; camera_B; camera_C]
           [report [camera_A; camera_B] 1; report [camera_C] 2;
            report [camera_B; camera_C] 3]).
  exact S.
Defined.

(** C7 at work: frame 1, then frame 2, then frame 1 again. *)
Lemma repeated_delivery_idempotent_witness :
  Forall (fun d : delivery unit => fst d <> 1) [report [camera_B; camera_C] 2] /\
  receive_camera_node_output
    (deliver_all (receive_camera_node_output (create [camera_A; camera_B; camera_C]) 1
                    (snd (report [camera_A; camera_B] 1)))
                 [report [camera_B; camera_C] 2])
    1 (snd (report [camera_A; camera_B] 1)) =
  deliver_all (receive_camera_node_output (create [camera_A; camera_B; camera_C]) 1
                 (snd (report [camera_A; camera_B] 1)))
              [report [camera_B; camera_C] 2].
Proof.
  assert (H : Forall (fun d : delivery unit => fst d <> 1) [report [camera_B; camera_C] 2]).
  { constructor; [|constructor]. simpl. discriminate. }
  split; [exact H|].
  apply (repeated_delivery_idempotent (create [camera_A; camera_B; camera_C]) 1
           (snd (report [camera_A; camera_B] 1)) [report [camera_B; camera_C] 2] H).
Defined.

(** C9 at work: camera B is unknown to the first accumulator and known to
    the second. *)
Lemma shared_view_count_partial_witness :
  (exists c, shared_view_count_by_camera
               (deliver_all (create [camera_A]) [report [camera_A; camera_B] 1]) =
             Raise (KeyError c)) /\
  (exists counts, shared_view_count_by_camera
                    (deliver_all (create [camera_A; camera_B; camera_C])
                       [report [camera_A; camera_B] 1]) =
                  Return counts).
Proof.
  split.
  - apply (shared_view_count_partial [camera_A] [report [camera_A; camera_B] 1]).
    exists (entry_of (report [camera_A; camera_B] 1)), camera_B.
    split; [left; reflexivity|]. split; [reflexivity|]. split; [right; left; reflexivity|].
    simpl. intros [H|[]]. discriminate H.
  - apply (shared_view_count_partial [camera_A; camera_B; camera_C]
             [report [camera_A; camera_B] 1]).
    intros view c [<-|[]] Hc. simpl in Hc. simpl.
    destruct Hc as [<-|[<-|[]]]; auto.
Defined.

(** C5 at work: the three frames delivered last to first. *)
Lemma two_cameras_share_three_frames_witness :
  Permutation (map (report [camera_A; camera_B]) [1; 2; 3])
              (map (report [camera_A; camera_B]) [3; 2; 1]) /\
  shared_view_count_by_camera
    (deliver_all (create [camera_A; camera_B; camera_C])
                 (map (report [camera_A; camera_B]) [3; 2; 1])) =
    Return [(camera_A, 3); (camera_B, 3); (camera_C, 0)] /\
  all_cameras_have_min_shared_views
    (deliver_all (create [camera_A; camera_B; camera_C])
                 (map (report [camera_A; camera_B]) [3; 2; 1])) 1 = Return false.
Proof.
  assert (P : Permutation (map (report [camera_A; camera_B]) [1; 2; 3])
                          (map (report [camera_A; camera_B]) [3; 2; 1]))
    by exact (Permutation_rev (map (report [camera_A; camera_B]) [1; 2; 3])).
  split; [exact P|].
  exact (two_cameras_share_three_frames no_payload true _ P).
Defined.

(** C6 at work: the six frames delivered last to first. *)
Lemma pairwise_coverage_gap_witness :
  Permutation
    (map (fun seers_n => report (fst seers_n) (snd seers_n))
         [([camera_A; camera_B], 1); ([camera_A; camera_B], 2);
          ([camera_B; camera_C], 3); ([camera_B; camera_C], 4);
          ([camera_A; camera_C], 5); ([camera_A; camera_C], 6)])
    [report [camera_A; camera_C] 6; report [camera_A; camera_C] 5;
     report [camera_B; camera_C] 4; report [camera_B; camera_C] 3;
     report [camera_A; camera_B] 2; report [camera_A; camera_B] 1] /\
  all_cameras_have_min_shared_views
    (deliver_all (create [camera_A; camera_B; camera_C])
       [report [camera_A; camera_C] 6; report [camera_A; camera_C] 5;
        report [camera_B; camera_C] 4; report [camera_B; camera_C] 3;
        report [camera_A; camera_B] 2; report [camera_A; camera_B] 1]) 2 = Return true.
Proof.
  assert (P : Permutation
    (map (fun seers_n => report (fst seers_n) (snd seers_n))
         [([camera_A; camera_B], 1); ([camera_A; camera_B], 2);
          ([camera_B; camera_C], 3); ([camera_B; camera_C], 4);
          ([camera_A; camera_C], 5); ([camera_A; camera_C], 6)])
    [report [camera_A; camera_C] 6; report [camera_A; camera_C] 5;
     report [camera_B; camera_C] 4; report [camera_B; camera_C] 3;
     report [camera_A; camera_B] 2; report [camera_A; camera_B] 1]).
  { exact (Permutation_rev
      (map (fun seers_n => report (fst seers_n) (snd seers_n))
         [([camera_A; camera_B], 1); ([camera_A; camera_B], 2);
          ([camera_B; camera_C], 3); ([camera_B; camera_C], 4);
          ([camera_A; camera_C], 5); ([camera_A; camera_C], 6)])). }
  split; [exact P|].
  exact (proj1 (proj2 (pairwise_coverage_gap no_payload _ P))).
Defined.

(** * Further properties *)

(** ** More on dictionaries and counting *)

Lemma forallb_agree {A : Type} (f g : A -> bool) (l : list A) :
  (forall x, In x l -> f x = g x) -> forallb f l = forallb g l.
Proof.
  induction l as [|x l IH]; intros H; simpl; [reflexivity|].
  rewrite (H x (or_introl eq_refl)), IH; [reflexivity|].
  intros y Hy. apply H. right. exact Hy.
Qed.

Lemma forallb_all_zero (m : Z) (vs : list Z) :
  Forall (fun v => v = 0) vs ->
  forallb (fun v => m <=? v) vs = match vs with [] => true | _ :: _ => m <=? 0 end.
Proof.
  induction 1 as [|v vs Hv _ IH]; simpl; [reflexivity|]. subst v. rewrite IH.
  destruct vs; [apply andb_true_r | apply andb_diag].
Qed.

Section MoreDictFacts.
Context {V : Type}.
Implicit Types (d : dict V) (k : Z) (v : V).

Lemma keys_fold_setitem (kvs : list (Z * V)) d :
  keys (fold_left (fun d kv => setitem d (fst kv) (snd kv)) kvs d) =
  keys d ++ filter (absent (keys d)) (first_occurrences (map fst kvs)).
Proof.
  revert d; induction kvs as [|[k v] kvs IH]; intros d; simpl.
  - rewrite app_nil_r. reflexivity.
  - rewrite IH. set (FO := first_occurrences (map fst kvs)).
    destruct (absent (keys d) k) eqn:E.
    + assert (Hn : ~ In k (keys d)) by (apply absent_true; exact E).
      rewrite setitem_fresh by exact Hn. unfold keys at 1 2. rewrite map_app. simpl.
      fold (keys d). rewrite <- app_assoc. simpl. f_equal. f_equal.
      rewrite filter_twice. apply filter_ext. intros k'.
      unfold absent. rewrite existsb_app. simpl. rewrite orb_false_r.
      rewrite negb_orb. apply andb_comm.
    + assert (Hin : In k (keys d)).
      { destruct (in_dec Z.eq_dec k (keys d)) as [H|H]; [exact H|].
        apply absent_true in H. congruence. }
      rewrite setitem_present by exact Hin. f_equal.
      rewrite filter_twice. apply filter_ext. intros k'.
      destruct (Z.eqb_spec k' k) as [->|_]; simpl; [exact E | reflexivity].
Qed.

Lemma keys_comprehension_order (kvs : list (Z * V)) :
  keys (comprehension kvs) = first_occurrences (map fst kvs).
Proof.
  unfold comprehension. rewrite keys_fold_setitem. simpl.
  apply filter_all, Forall_forall. reflexivity.
Qed.

(** A comprehension over distinct keys is the list of its bindings. *)
Lemma fold_setitem_distinct (kvs : list (Z * V)) d :
  NoDup (keys d ++ map fst kvs) ->
  fold_left (fun d kv => setitem d (fst kv) (snd kv)) kvs d = d ++ kvs.
Proof.
  revert d; induction kvs as [|[k v] kvs IH]; intros d ND; simpl.
  - rewrite app_nil_r. reflexivity.
  - simpl in ND. assert (Hk : ~ In k (keys d)).
    { apply NoDup_remove_2 in ND. intros H. apply ND. apply in_or_app. auto. }
    rewrite setitem_fresh by exact Hk. rewrite IH.
    + rewrite <- app_assoc. reflexivity.
    + unfold keys. rewrite map_app, <- app_assoc. exact ND.
Qed.

Lemma comprehension_distinct (kvs : list (Z * V)) :
  NoDup (map fst kvs) -> comprehension kvs = kvs.
Proof. intros ND. unfold comprehension. rewrite fold_setitem_distinct; auto. Qed.

Lemma getitem_absent_filter (p : Z * V -> bool) d k :
  ~ In k (keys d) -> getitem (filter p d) k = None.
Proof.
  intros H. apply getitem_None. intros Hin. apply H.
  unfold keys in *. apply in_map_iff in Hin. destruct Hin as (kv & <- & Hkv).
  apply filter_In in Hkv. apply in_map, Hkv.
Qed.

Lemma getitem_filter (p : V -> bool) d k :
  NoDup (keys d) ->
  getitem (filter (fun kv => p (snd kv)) d) k =
  match getitem d k with
  | Some v => if p v then Some v else None
  | None => None
  end.
Proof.
  induction d as [|[k0 v0] d IH]; intros ND; simpl; [reflexivity|].
  inversion ND as [|? ? Hk0 ND']; subst.
  destruct (Z.eqb_spec k k0) as [->|Hne].
  - destruct (p v0); simpl.
    + rewrite Z.eqb_refl. reflexivity.
    + apply getitem_absent_filter, Hk0.
  - destruct (p v0); simpl; [|auto].
    destruct (Z.eqb_spec k k0); [congruence | auto].
Qed.

Lemma NoDup_keys_filter (p : Z * V -> bool) d :
  NoDup (keys d) -> NoDup (keys (filter p d)).
Proof.
  induction d as [|[k v] d IH]; simpl; [auto|]. intros ND.
  inversion ND as [|? ? Hk ND']; subst.
  destruct (p (k, v)); simpl; [|auto]. constructor; [|auto].
  intros Hin. apply Hk. unfold keys in *. apply in_map_iff in Hin.
  destruct Hin as (kv & <- & Hkv). apply filter_In in Hkv. apply in_map, Hkv.
Qed.

Lemma forallb_values (p : V -> bool) d :
  NoDup (keys d) ->
  forallb p (values d) =
  forallb (fun k => match getitem d k with Some v => p v | None => true end) (keys d).
Proof.
  induction d as [|[k0 v0] d IH]; intros ND; simpl; [reflexivity|].
  inversion ND as [|? ? Hk0 ND']; subst. rewrite Z.eqb_refl. f_equal.
  rewrite IH by exact ND'. apply forallb_agree.
  intros k Hk. destruct (Z.eqb_spec k k0) as [->|_]; [tauto | reflexivity].
Qed.
End MoreDictFacts.

Section MoreCounting.
Context {Observation : Type}.
Implicit Types (view : TargetViewByCamera Observation)
               (self acc : SharedViewAccumulator Observation)
               (counts : dict Z).

Lemma for_each_increment_keys counts cs counts' :
  for_each increment counts cs = Return counts' -> keys counts' = keys counts.
Proof.
  revert counts; induction cs as [|c cs IH]; intros counts; simpl.
  - intros [= <-]. reflexivity.
  - unfold increment at 1. destruct (getitem counts c) as [n|] eqn:E; simpl; [|discriminate].
    intros H. rewrite (IH _ H). apply setitem_present, mem_keys.
    unfold mem. rewrite E. reflexivity.
Qed.

Lemma for_each_increment_inv counts cs counts' :
  NoDup (keys counts) ->
  for_each increment counts cs = Return counts' ->
  counts' = tally counts cs /\ Forall (fun c => In c (keys counts)) cs.
Proof.
  intros ND H. destruct (all_keys_dec counts cs) as [F|F].
  - rewrite for_each_increment_Return in H by assumption.
    injection H as <-. auto.
  - destruct (for_each_increment_Raise counts cs F) as (c & Hr & _). congruence.
Qed.

Lemma getitem_tally counts cs c :
  getitem (tally counts cs) c =
  option_map (fun n => n + Z.of_nat (count_occ Z.eq_dec cs c)) (getitem counts c).
Proof.
  unfold tally. induction counts as [|[k n] counts IH]; simpl; [reflexivity|].
  destruct (Z.eqb_spec c k) as [->|_]; [reflexivity | exact IH].
Qed.

Lemma values_initial_counts cameras :
  Forall (fun v => v = 0) (values (initial_counts cameras)).
Proof.
  apply Forall_forall. intros v Hv. apply in_map_iff in Hv.
  destruct Hv as ([c v'] & <- & Hin). apply In_comprehension in Hin.
  apply in_map_iff in Hin. destruct Hin as (c' & [= _ <-] & _). reflexivity.
Qed.

Lemma existsb_eqb_In (l : list Z) c : existsb (Z.eqb c) l = true <-> In c l.
Proof.
  rewrite existsb_exists. split.
  - intros (x & Hx & E). apply Z.eqb_eq in E. subst x. exact Hx.
  - intros H. exists c. split; [exact H | apply Z.eqb_refl].
Qed.

Lemma getitem_initial_counts cameras c :
  getitem (initial_counts cameras) c = if existsb (Z.eqb c) cameras then Some 0 else None.
Proof.
  destruct (existsb (Z.eqb c) cameras) eqn:E.
  - apply existsb_eqb_In, keys_initial_counts, mem_keys in E. unfold mem in E.
    destruct (getitem (initial_counts cameras) c) as [v|] eqn:G; [|discriminate].
    f_equal. apply getitem_Some_In in G.
    pose proof (values_initial_counts cameras) as F. rewrite Forall_forall in F.
    apply F. change v with (snd (c, v)). apply in_map, G.
  - apply getitem_None. rewrite keys_initial_counts. intros H.
    apply existsb_eqb_In in H. congruence.
Qed.

Lemma count_occ_distinct (l : list Z) c :
  NoDup l ->
  count_occ Z.eq_dec l c = if existsb (Z.eqb c) l then 1%nat else 0%nat.
Proof.
  induction 1 as [|x l Hx _ IH]; simpl; [reflexivity|].
  destruct (Z.eq_dec x c) as [->|Hne].
  - rewrite Z.eqb_refl. simpl. f_equal.
    apply count_occ_not_In. exact Hx.
  - destruct (Z.eqb_spec c x); [congruence|]. simpl. exact IH.
Qed.

Lemma count_occ_counted_cameras (views : list (TargetViewByCamera Observation)) c :
  Forall (fun view => NoDup (cameras_that_can_see_target view)) views ->
  count_occ Z.eq_dec (counted_cameras views) c =
  List.length
    (filter (fun view => existsb (Z.eqb c) (cameras_that_can_see_target view))
            (filter multiple_cameras_can_see_target views)).
Proof.
  unfold counted_cameras.
  induction 1 as [|view views Hv _ IH]; [reflexivity|].
  cbn [flat_map filter]. rewrite count_occ_app.
  destruct (multiple_cameras_can_see_target view); cbn [filter]; [|exact IH].
  rewrite (count_occ_distinct _ _ Hv).
  destruct (existsb (Z.eqb c) (cameras_that_can_see_target view));
    cbn [List.length]; [|exact IH].
  simpl Nat.add. f_equal. exact IH.
Qed.

Lemma sum_values_setitem counts c n v :
  getitem counts c = Some n ->
  sum_values (setitem counts c v) = sum_values counts - n + v.
Proof.
  unfold sum_values. induction counts as [|[k m] counts IH]; simpl; [discriminate|].
  destruct (c =? k); simpl.
  - intros [= ->]. lia.
  - intros H. rewrite (IH H). lia.
Qed.

Lemma sum_values_for_each_increment counts cs counts' :
  for_each increment counts cs = Return counts' ->
  sum_values counts' = sum_values counts + Z.of_nat (List.length cs).
Proof.
  revert counts; induction cs as [|c cs IH]; intros counts; simpl List.length.
  - simpl. intros [= <-]. lia.
  - simpl for_each. unfold increment at 1.
    destruct (getitem counts c) as [n|] eqn:E; simpl; [|discriminate].
    intros H. rewrite (IH _ H), (sum_values_setitem _ _ _ _ E). lia.
Qed.

Lemma sum_values_initial_counts cameras : sum_values (initial_counts cameras) = 0.
Proof.
  unfold sum_values. pose proof (values_initial_counts cameras) as F.
  induction F as [|v vs Hv _ IH]; simpl; [reflexivity|]. lia.
Qed.

Lemma counted_cameras_length (views : list (TargetViewByCamera Observation)) :
  (2 * List.length (filter multiple_cameras_can_see_target views)
   <= List.length (counted_cameras views))%nat.
Proof.
  unfold counted_cameras.
  induction views as [|view views IH]; simpl; [lia|].
  rewrite length_app.
  destruct (multiple_cameras_can_see_target view) eqn:M; simpl; [|lia].
  unfold multiple_cameras_can_see_target in M. apply Z.ltb_lt in M. lia.
Qed.

(** The views stored by deliveries hold each camera id once. *)
Lemma reachable_cameras_distinct cameras ds :
  Forall (fun view => NoDup (cameras_that_can_see_target view))
         (values (shared_views_by_frame (deliver_all (@create Observation cameras) ds))).
Proof.
  apply Forall_forall. intros view Hin.
  rewrite (reachable_cameras cameras ds view Hin).
  apply in_map_iff in Hin. destruct Hin as (kv & <- & Hin).
  apply reachable_entries in Hin. destruct Hin as (d & _ & ->).
  apply NoDup_keys_comprehension.
Qed.

Lemma entry_of_cameras_distinct (d : delivery Observation) :
  NoDup (cameras_that_can_see_target (entry_of d)).
Proof.
  rewrite only_visible_cameras by apply entry_of_only_visible.
  apply NoDup_keys_comprehension.
Qed.

End MoreCounting.

Section CountsOfReachable.
Context {Observation : Type}.
Implicit Types (view : TargetViewByCamera Observation)
               (self acc : SharedViewAccumulator Observation)
               (counts : dict Z).

Lemma first_occurrences_In ks k : In k ks -> In k (first_occurrences ks).
Proof.
  induction ks as [|k0 ks IH]; simpl; [tauto|].
  intros [H|H]; [auto|]. destruct (Z.eq_dec k0 k) as [E|E]; [auto|].
  right. apply filter_In. split; [auto|].
  apply negb_true_iff, Z.eqb_neq. congruence.
Qed.

Lemma forallb_first_occurrences (f : Z -> bool) ks :
  forallb f (first_occurrences ks) = forallb f ks.
Proof.
  apply eq_true_iff_eq. rewrite !forallb_forall. split; intros H x Hx; apply H.
  - apply first_occurrences_In, Hx.
  - apply In_first_occurrences, Hx.
Qed.

Lemma counts_keys acc counts :
  shared_view_count_by_camera acc = Return counts ->
  keys counts = first_occurrences (camera_ids acc).
Proof.
  rewrite shared_view_count_by_camera_unfold. intros H.
  apply for_each_increment_keys in H. rewrite H.
  unfold initial_counts. rewrite keys_comprehension_order, map_map. simpl.
  rewrite map_id. reflexivity.
Qed.

Lemma counts_tally acc counts :
  shared_view_count_by_camera acc = Return counts ->
  counts = tally (initial_counts (camera_ids acc))
                 (counted_cameras (values (shared_views_by_frame acc))).
Proof.
  rewrite shared_view_count_by_camera_unfold. intros H.
  apply for_each_increment_inv in H; [tauto | apply NoDup_keys_comprehension].
Qed.

Lemma counts_lookup cameras ds counts c :
  shared_view_count_by_camera (deliver_all (@create Observation cameras) ds) = Return counts ->
  getitem counts c =
  if existsb (Z.eqb c) cameras
  then Some (shared_views_of (deliver_all (create cameras) ds) c)
  else None.
Proof.
  intros H. rewrite (counts_tally _ _ H), getitem_tally, getitem_initial_counts.
  rewrite camera_ids_deliver_all. simpl camera_ids.
  destruct (existsb (Z.eqb c) cameras); simpl; [|reflexivity].
  rewrite count_occ_counted_cameras by apply reachable_cameras_distinct.
  reflexivity.
Qed.

Lemma counts_nonnegative acc counts :
  shared_view_count_by_camera acc = Return counts ->
  Forall (fun v => 0 <= v) (values counts).
Proof.
  intros H. rewrite (counts_tally _ _ H). apply Forall_forall. intros v Hv.
  unfold tally, values in Hv. rewrite map_map in Hv. apply in_map_iff in Hv.
  destruct Hv as ([k n] & <- & Hin). simpl.
  pose proof (values_initial_counts (camera_ids acc)) as F. rewrite Forall_forall in F.
  rewrite (F n); [lia|]. change n with (snd (k, n)). apply in_map, Hin.
Qed.

Lemma count_after_new_frame_law acc (n : MultiFrameNumber)
    (output : dict (CalibrationCameraNodeOutputData Observation)) :
  ~ In n (keys (shared_views_by_frame acc)) ->
  shared_view_count_by_camera (receive_camera_node_output acc n output) =
  (counts <- shared_view_count_by_camera acc ;; count_frame counts (entry_of (n, output))).
Proof.
  intros Hn. unfold shared_view_count_by_camera, receive_camera_node_output. simpl.
  rewrite setitem_fresh by exact Hn. unfold values. rewrite map_app, for_each_app. simpl.
  destruct (for_each count_frame _ (map snd (shared_views_by_frame acc))) as [counts|e];
    simpl; [|reflexivity].
  unfold entry_of. simpl.
  destruct (count_frame counts _); reflexivity.
Qed.

End CountsOfReachable.

(** ** The accumulator, further *)

Section AccumulatorProperties.
Context {Observation : Type}.
Implicit Types (view : TargetViewByCamera Observation)
               (self acc : SharedViewAccumulator Observation)
               (counts : dict Z).

(** X1.  When [shared_view_count_by_camera] returns, its dictionary has
    one entry per distinct camera id of [camera_ids], in the order of
    [camera_ids]; a camera id listed twice is counted once. *)
Theorem counts_one_entry_per_camera acc counts :
  shared_view_count_by_camera acc = Return counts ->
  keys counts = first_occurrences (camera_ids acc) /\
  NoDup (keys counts) /\
  (forall c, In c (keys counts) <-> In c (camera_ids acc)).
Proof.
  intros H. pose proof (counts_keys acc counts H) as K. split; [exact K|]. split.
  - rewrite (counts_tally _ _ H), keys_tally. apply NoDup_keys_comprehension.
  - intros c. rewrite K. split;
      [apply In_first_occurrences | apply first_occurrences_In].
Qed.

(** X2.  After any deliveries, the count returned for a camera of
    [camera_ids] is the number of stored multi-view frames in which that
    camera sees the target; other camera ids have no entry. *)
Theorem count_is_number_of_shared_views
    (cameras : list CameraId) (ds : list (delivery Observation)) counts (c : CameraId) :
  shared_view_count_by_camera (deliver_all (create cameras) ds) = Return counts ->
  getitem counts c =
  if existsb (Z.eqb c) cameras
  then Some (shared_views_of (deliver_all (create cameras) ds) c)
  else None.
Proof. apply counts_lookup. Qed.

(** X3.  Counts are never negative, so a threshold of zero or less is met
    whenever the count itself does not raise. *)
Theorem nonpositive_threshold_is_met acc counts (m : Z) :
  m <= 0 ->
  shared_view_count_by_camera acc = Return counts ->
  Forall (fun v => 0 <= v) (values counts) /\
  all_cameras_have_min_shared_views acc m = Return true.
Proof.
  intros Hm H. pose proof (counts_nonnegative acc counts H) as F.
  split; [exact F|]. unfold all_cameras_have_min_shared_views. rewrite H. simpl.
  f_equal. apply forallb_forall. intros v Hv. rewrite Forall_forall in F.
  specialize (F v Hv). apply Z.leb_le. lia.
Qed.

(** X4.  Readiness is downward closed in the threshold: if every camera
    has [m] shared views, every camera has [m'] for each [m' <= m]. *)
Theorem lower_threshold_is_met acc (m m' : Z) :
  m' <= m ->
  all_cameras_have_min_shared_views acc m = Return true ->
  all_cameras_have_min_shared_views acc m' = Return true.
Proof.
  intros Hm. unfold all_cameras_have_min_shared_views.
  destruct (shared_view_count_by_camera acc) as [counts|e]; simpl; [|discriminate].
  intros [= H]. f_equal. rewrite forallb_forall in *. intros v Hv.
  specialize (H v Hv). apply Z.leb_le in H. apply Z.leb_le. lia.
Qed.

(** X5.  A fresh accumulator has no shared views and every count at
    zero: it is ready only for a threshold of zero or less, except that
    with an empty camera list it is ready for every threshold. *)
Theorem fresh_accumulator (cameras : list CameraId) (m : Z) :
  shared_target_views (@create Observation cameras) = [] /\
  (exists counts,
      shared_view_count_by_camera (@create Observation cameras) = Return counts /\
      Forall (fun v => v = 0) (values counts)) /\
  all_cameras_have_min_shared_views (@create Observation cameras) m =
    Return (match cameras with [] => true | _ :: _ => m <=? 0 end).
Proof.
  split; [reflexivity|]. split.
  - exists (initial_counts cameras). split; [reflexivity | apply values_initial_counts].
  - unfold all_cameras_have_min_shared_views. simpl. f_equal.
    change (comprehension (map (fun camera_id => (camera_id, 0)) cameras))
      with (initial_counts cameras).
    rewrite forallb_all_zero by apply values_initial_counts.
    destruct cameras as [|c cameras]; [reflexivity|].
    assert (N : In c (keys (initial_counts (c :: cameras))))
      by (apply keys_initial_counts; left; reflexivity).
    destruct (initial_counts (c :: cameras)) as [|[k v] rest]; [destruct N | reflexivity].
Qed.

(** X6.  After any deliveries, and when the count does not raise,
    [all_cameras_have_min_shared_views m] is true exactly when each camera
    of [camera_ids] sees the target in at least [m] stored multi-view
    frames. *)
Theorem readiness_is_per_camera_threshold
    (cameras : list CameraId) (ds : list (delivery Observation)) counts (m : Z) :
  shared_view_count_by_camera (deliver_all (create cameras) ds) = Return counts ->
  all_cameras_have_min_shared_views (deliver_all (create cameras) ds) m =
  Return (forallb (fun c => m <=? shared_views_of (deliver_all (create cameras) ds) c)
                  cameras).
Proof.
  intros H. unfold all_cameras_have_min_shared_views. rewrite H. simpl. f_equal.
  rewrite forallb_values.
  - rewrite (counts_keys _ _ H), camera_ids_deliver_all. simpl camera_ids.
    rewrite forallb_first_occurrences. apply forallb_agree. intros c Hc.
    rewrite (counts_lookup cameras ds counts c H).
    apply existsb_eqb_In in Hc. rewrite Hc. reflexivity.
  - rewrite (counts_tally _ _ H), keys_tally. apply NoDup_keys_comprehension.
Qed.

(** X7.  Counting after the delivery of a multi-frame number not stored
    before is counting first and then running the frame loop once more on
    the new entry, exceptions included. *)
Theorem count_after_new_frame
    acc (n : MultiFrameNumber) (output : dict (CalibrationCameraNodeOutputData Observation)) :
  ~ In n (keys (shared_views_by_frame acc)) ->
  shared_view_count_by_camera (receive_camera_node_output acc n output) =
  (counts <- shared_view_count_by_camera acc ;; count_frame counts (entry_of (n, output))).
Proof. apply count_after_new_frame_law. Qed.

(** X8.  The delivery of a multi-frame number not stored before, when the
    count returns before and after it, raises by one the count of each
    camera that sees the target in it if at least two cameras do, and
    leaves every other count as it was. *)
Theorem new_frame_raises_counts_by_one
    acc (n : MultiFrameNumber) (output : dict (CalibrationCameraNodeOutputData Observation))
    counts counts' (c : CameraId) :
  ~ In n (keys (shared_views_by_frame acc)) ->
  shared_view_count_by_camera acc = Return counts ->
  shared_view_count_by_camera (receive_camera_node_output acc n output) = Return counts' ->
  getitem counts' c =
  option_map
    (fun k => k + if multiple_cameras_can_see_target (entry_of (n, output)) &&
                     existsb (Z.eqb c) (cameras_that_can_see_target (entry_of (n, output)))
                  then 1 else 0)
    (getitem counts c).
Proof.
  intros Hn H H'. rewrite count_after_new_frame_law in H' by exact Hn.
  rewrite H in H'. simpl in H'. unfold count_frame in H'.
  destruct (multiple_cameras_can_see_target (entry_of (n, output))); simpl.
  - apply for_each_increment_inv in H'.
    + destruct H' as [-> _]. rewrite getitem_tally.
      rewrite count_occ_distinct by apply entry_of_cameras_distinct.
      destruct (existsb (Z.eqb c) (cameras_that_can_see_target (entry_of (n, output))));
        reflexivity.
    + rewrite (counts_tally _ _ H), keys_tally. apply NoDup_keys_comprehension.
  - injection H' as <-. destruct (getitem counts c); simpl; [f_equal; lia | reflexivity].
Qed.

(** X9.  Lookup after receive: for a delivered dictionary (one binding
    per camera id), the observation stored for a camera at the delivered
    multi-frame number is the delivered one if it sees the target, and
    none otherwise. *)
Theorem stored_after_receive
    acc (n : MultiFrameNumber) (output : dict (CalibrationCameraNodeOutputData Observation))
    (c : CameraId) :
  NoDup (keys output) ->
  stored_observation (receive_camera_node_output acc n output) n c =
  match getitem output c with
  | Some o => if can_see_target o then Some o else None
  | None => None
  end.
Proof.
  intros ND. unfold stored_observation. rewrite lookup_receive, Z.eqb_refl.
  unfold entry_of, items. simpl.
  rewrite comprehension_distinct.
  - apply (getitem_filter (fun o => can_see_target o)), ND.
  - apply NoDup_keys_filter, ND.
Qed.

(** X10.  Last write wins over a whole history: after the deliveries
    [ds], the entry at a multi-frame number is the one built from the last
    delivery for that number, and the earlier entry if there was none. *)
Theorem lookup_after_deliveries
    acc (ds : list (delivery Observation)) (n : MultiFrameNumber) :
  getitem (shared_views_by_frame (deliver_all acc ds)) n =
  match last_delivery ds n with
  | Some d => Some (entry_of d)
  | None => getitem (shared_views_by_frame acc) n
  end.
Proof.
  unfold last_delivery. induction ds as [|d ds IH] using rev_ind; [reflexivity|].
  unfold deliver_all in *. rewrite fold_left_app, rev_app_distr.
  cbn [fold_left rev app find].
  etransitivity; [exact (lookup_receive (fold_left deliver ds acc) (fst d) (snd d) n)|].
  rewrite (Z.eqb_sym n (fst d)). unfold delivery, MultiFrameNumber in *.
  destruct (fst d =? n); [|exact IH].
  destruct d; reflexivity.
Qed.

(** X11.  After any deliveries the frame map has one entry per distinct
    delivered multi-frame number, each entry carries the number it is
    stored under, and [shared_target_views] never lists a multi-frame
    number twice. *)
Theorem one_entry_per_frame_number
    (cameras : list CameraId) (ds : list (delivery Observation)) :
  let acc := deliver_all (create cameras) ds in
  keys (shared_views_by_frame acc) = first_occurrences (map fst ds) /\
  NoDup (keys (shared_views_by_frame acc)) /\
  Forall (fun kv => multi_frame_number (snd kv) = fst kv) (shared_views_by_frame acc) /\
  NoDup (map multi_frame_number (shared_target_views acc)).
Proof.
  intros acc.
  assert (W : NoDup (keys (shared_views_by_frame acc)))
    by apply well_formed_deliver_all, well_formed_create.
  split; [apply keys_reachable|]. split; [exact W|].
  split; [apply reachable_frame_numbers|].
  unfold shared_target_views.
  rewrite multi_view_numbers; [|exact W|apply reachable_frame_numbers].
  apply NoDup_filter, W.
Qed.

(** X12.  When the count returns, its values add up to the number of
    (camera, multi-view frame) sightings, which is at least twice the
    number of shared target views. *)
Theorem counts_add_up acc counts :
  shared_view_count_by_camera acc = Return counts ->
  sum_values counts =
    Z.of_nat (List.length (counted_cameras (values (shared_views_by_frame acc)))) /\
  2 * Z.of_nat (List.length (shared_target_views acc)) <= sum_values counts.
Proof.
  intros H.
  assert (E : sum_values counts =
              Z.of_nat (List.length (counted_cameras (values (shared_views_by_frame acc))))).
  { rewrite shared_view_count_by_camera_unfold in H.
    apply sum_values_for_each_increment in H.
    rewrite sum_values_initial_counts in H. lia. }
  split; [exact E|]. rewrite E. unfold shared_target_views.
  pose proof (counted_cameras_length (values (shared_views_by_frame acc))). lia.
Qed.

(** X13.  For deliveries with pairwise distinct multi-frame numbers, made
    after any earlier history, the order of delivery changes neither which
    entries [shared_target_views] returns (only their order) nor the
    answer of [all_cameras_have_min_shared_views]. *)
Theorem views_and_readiness_order_independent
    (cameras : list CameraId) (before ds ds' : list (delivery Observation)) (m : Z) :
  NoDup (map fst ds) ->
  Permutation ds ds' ->
  Permutation
    (shared_target_views (deliver_all (deliver_all (create cameras) before) ds))
    (shared_target_views (deliver_all (deliver_all (create cameras) before) ds')) /\
  returned (all_cameras_have_min_shared_views
              (deliver_all (deliver_all (create cameras) before) ds) m) =
  returned (all_cameras_have_min_shared_views
              (deliver_all (deliver_all (create cameras) before) ds') m).
Proof.
  intros ND P.
  assert (W : well_formed (deliver_all (@create Observation cameras) before))
    by apply well_formed_deliver_all, well_formed_create.
  split.
  - unfold shared_target_views. apply Permutation_filter_same, same_frames_values.
    + apply well_formed_deliver_all, W.
    + apply well_formed_deliver_all, W.
    + apply deliver_all_Permutation; assumption.
  - pose proof (counts_Permutation _ ds ds' W ND P) as E.
    unfold all_cameras_have_min_shared_views.
    destruct (shared_view_count_by_camera (deliver_all _ ds)),
             (shared_view_count_by_camera (deliver_all _ ds'));
      simpl in *; congruence.
Qed.

(** X14.  For an entry with one binding per camera id, the multi-view
    status is true exactly when two different cameras both have a stored
    observation that sees the target. *)
Theorem multi_view_is_two_cameras view :
  NoDup (keys (views_by_camera view)) ->
  multiple_cameras_can_see_target view = true <->
  exists c1 c2 o1 o2,
    c1 <> c2 /\
    getitem (views_by_camera view) c1 = Some o1 /\ can_see_target o1 = true /\
    getitem (views_by_camera view) c2 = Some o2 /\ can_see_target o2 = true.
Proof.
  intros ND. unfold multiple_cameras_can_see_target, cameras_that_can_see_target, items.
  rewrite Z.ltb_lt, length_map.
  set (seen := filter (fun kv => can_see_target (snd kv)) (views_by_camera view)).
  assert (NDs : NoDup (keys seen)) by apply NoDup_keys_filter, ND.
  assert (Hseen : forall c o, In (c, o) seen <->
            getitem (views_by_camera view) c = Some o /\ can_see_target o = true).
  { intros c o. unfold seen. rewrite filter_In. simpl. split.
    - intros [Hin Hp]. split; [apply In_getitem; assumption | exact Hp].
    - intros [Hg Hp]. split; [apply getitem_Some_In, Hg | exact Hp]. }
  split.
  - intros L. destruct seen as [|[c1 o1] [|[c2 o2] rest]] eqn:E; simpl in L; try lia.
    exists c1, c2, o1, o2.
    destruct (Hseen c1 o1) as [[G1 P1] _]; [left; reflexivity|].
    destruct (Hseen c2 o2) as [[G2 P2] _]; [right; left; reflexivity|].
    repeat split; try assumption.
    simpl in NDs. inversion NDs as [|? ? Hn _]; subst. intros ->. apply Hn. left. reflexivity.
  - intros (c1 & c2 & o1 & o2 & Hne & G1 & P1 & G2 & P2).
    assert (I1 : In (c1, o1) seen) by (apply Hseen; auto).
    assert (I2 : In (c2, o2) seen) by (apply Hseen; auto).
    destruct seen as [|x [|y rest]]; simpl in *; [tauto | | lia].
    destruct I1 as [E1|[]], I2 as [E2|[]]. congruence.
Qed.

(** X18.  Stored frames never move: a delivery for a stored multi-frame
    number keeps the key order of the frame map, a delivery for a new one
    puts it last; and then [shared_target_views] is the earlier sequence,
    followed by the new entry if it is a multi-view. *)
Theorem new_frame_goes_last
    acc (n : MultiFrameNumber) (output : dict (CalibrationCameraNodeOutputData Observation)) :
  let acc' := receive_camera_node_output acc n output in
  keys (shared_views_by_frame acc') =
    (if existsb (Z.eqb n) (keys (shared_views_by_frame acc))
     then keys (shared_views_by_frame acc)
     else keys (shared_views_by_frame acc) ++ [n]) /\
  (~ In n (keys (shared_views_by_frame acc)) ->
   shared_target_views acc' =
     shared_target_views acc ++
     (if multiple_cameras_can_see_target (entry_of (n, output))
      then [entry_of (n, output)] else [])).
Proof.
  intros acc'. split.
  - unfold acc', receive_camera_node_output. simpl.
    destruct (existsb (Z.eqb n) (keys (shared_views_by_frame acc))) eqn:E.
    + apply setitem_present, existsb_eqb_In, E.
    + rewrite setitem_fresh.
      * unfold keys. rewrite map_app. reflexivity.
      * intros H. apply existsb_eqb_In in H. congruence.
  - intros Hn. unfold acc', shared_target_views, receive_camera_node_output. simpl.
    rewrite setitem_fresh by exact Hn. unfold values. rewrite map_app, filter_app.
    reflexivity.
Qed.

End AccumulatorProperties.

(** ** The camera node, further *)

Section NodeProperties.
Import CameraNode.
Context {Image CharucoObservation : Type}.
Variable process_image : Image -> py CharucoObservation.

Lemma while_not_shutdown_queue (polls : list (poll Image)) queue :
  fst (while_not_shutdown process_image polls queue) =
  queue ++ published process_image (going_prefix process_image polls).
Proof.
  revert queue. induction polls as [|p polls IH]; intros queue; simpl.
  - rewrite app_nil_r. reflexivity.
  - destruct p as [| |image]; simpl.
    + rewrite app_nil_r. reflexivity.
    + apply IH.
    + destruct (process_image image) as [observation|e] eqn:E; simpl; rewrite ?E; simpl.
      * rewrite IH, <- app_assoc. reflexivity.
      * rewrite app_nil_r. reflexivity.
Qed.



(** X16.  Cooperative shutdown: once a poll finds the shutdown event
    set, the node returns without an exception; it has published the
    detector's output for each frame polled before, in order, and looks at
    nothing that comes after. *)
Theorem shutdown_poll_ends_node (before after : list (poll Image)) :
  forallb (goes_on process_image) before = true ->
  let node := _run process_image (before ++ ShutdownIsSet :: after) in
  exit node = Returned /\
  output_queue node = published process_image before /\
  shutdown_event node = true /\
  camera_ring_shm_closed node = true /\
  node = _run process_image (before ++ [ShutdownIsSet]).
Proof.
  intros Hb node. unfold node, _run.
  rewrite !while_not_shutdown_goes_on by exact Hb. simpl. repeat split.
Qed.

(** X17.  Whatever the polls, the output queue holds the detector's
    outputs for the new frames polled before the first poll that ends the
    loop, one per frame and in polling order; so it never holds more
    outputs than new frames were polled. *)
Theorem one_output_per_processed_frame (polls : list (poll Image)) :
  output_queue (_run process_image polls) =
    published process_image (going_prefix process_image polls) /\
  (List.length (output_queue (_run process_image polls)) <= new_frames polls)%nat /\
  (forallb (goes_on process_image) polls = true ->
   List.length (output_queue (_run process_image polls)) = new_frames polls).
Proof.
  assert (Q : output_queue (_run process_image polls) =
              published process_image (going_prefix process_image polls)).
  { pose proof (while_not_shutdown_queue polls []) as Q. unfold _run.
    destruct (while_not_shutdown process_image polls []) as [queue [| |e]];
      simpl in *; exact Q. }
  rewrite Q. clear Q. split; [reflexivity|]. unfold new_frames, published. split.
  - induction polls as [|p polls IH]; simpl; [lia|].
    destruct p as [| |image]; simpl; try lia.
    destruct (process_image image) eqn:E; simpl; rewrite ?E; simpl; lia.
  - induction polls as [|p polls IH]; simpl; [reflexivity|].
    intros H. apply andb_true_iff in H. destruct H as [Hp H].
    rewrite Hp. destruct p as [| |image]; simpl in *; [discriminate | auto |].
    destruct (process_image image) eqn:E; simpl in *; [|discriminate].
    rewrite ?E. simpl. rewrite IH by exact H. reflexivity.
Qed.

End NodeProperties.

(** ** Instances of the further properties *)

(** X1 at work: camera A is listed twice. *)
Lemma counts_one_entry_per_camera_witness :
  shared_view_count_by_camera (@create unit [camera_A; camera_B; camera_A]) =
    Return [(camera_A, 0); (camera_B, 0)] /\
  keys [(camera_A, 0); (camera_B, 0)] =
    first_occurrences (camera_ids (@create unit [camera_A; camera_B; camera_A])).
Proof.
  assert (H : shared_view_count_by_camera (@create unit [camera_A; camera_B; camera_A]) =
              Return [(camera_A, 0); (camera_B, 0)]) by reflexivity.
  split; [exact H|]. exact (proj1 (counts_one_entry_per_camera _ _ H)).
Defined.

(** X2 at work: camera B sees the target in both multi-view frames. *)
Lemma count_is_number_of_shared_views_witness :
  shared_view_count_by_camera two_frames =
    Return [(camera_A, 1); (camera_B, 2); (camera_C, 1)] /\
  getitem [(camera_A, 1); (camera_B, 2); (camera_C, 1)] camera_B =
    Some (shared_views_of two_frames camera_B).
Proof.
  assert (H : shared_view_count_by_camera two_frames =
              Return [(camera_A, 1); (camera_B, 2); (camera_C, 1)]) by reflexivity.
  split; [exact H|].
  exact (count_is_number_of_shared_views [camera_A; camera_B; camera_C] _ _ camera_B H).
Defined.

(** X3 at work: threshold 0. *)
Lemma nonpositive_threshold_is_met_witness :
  0 <= 0 /\
  shared_view_count_by_camera two_frames =
    Return [(camera_A, 1); (camera_B, 2); (camera_C, 1)] /\
  all_cameras_have_min_shared_views two_frames 0 = Return true.
Proof.
  assert (H : shared_view_count_by_camera two_frames =
              Return [(camera_A, 1); (camera_B, 2); (camera_C, 1)]) by reflexivity.
  split; [apply Z.le_refl|]. split; [exact H|].
  exact (proj2 (nonpositive_threshold_is_met two_frames _ 0 (Z.le_refl 0) H)).
Defined.

(** X4 at work: ready for 1, hence for 0. *)
Lemma lower_threshold_is_met_witness :
  0 <= 1 /\
  all_cameras_have_min_shared_views two_frames 1 = Return true /\
  all_cameras_have_min_shared_views two_frames 0 = Return true.
Proof.
  assert (L : 0 <= 1) by lia.
  assert (H : all_cameras_have_min_shared_views two_frames 1 = Return true) by reflexivity.
  split; [exact L|]. split; [exact H|].
  exact (lower_threshold_is_met two_frames 1 0 L H).
Defined.

(** X6 at work. *)
Lemma readiness_is_per_camera_threshold_witness :
  shared_view_count_by_camera two_frames =
    Return [(camera_A, 1); (camera_B, 2); (camera_C, 1)] /\
  all_cameras_have_min_shared_views two_frames 2 =
    Return (forallb (fun c => 2 <=? shared_views_of two_frames c)
                    [camera_A; camera_B; camera_C]).
Proof.
  assert (H : shared_view_count_by_camera two_frames =
              Return [(camera_A, 1); (camera_B, 2); (camera_C, 1)]) by reflexivity.
  split; [exact H|].
  exact (readiness_is_per_camera_threshold [camera_A; camera_B; camera_C] _ _ 2 H).
Defined.

Lemma frame_3_is_new : ~ In 3 (keys (shared_views_by_frame two_frames)).
Proof. simpl. intros [H|[H|[]]]; discriminate H. Defined.

(** X7 at work: frame 3 is new. *)
Lemma count_after_new_frame_witness :
  ~ In 3 (keys (shared_views_by_frame two_frames)) /\
  shared_view_count_by_camera
    (receive_camera_node_output two_frames 3 (snd (report [camera_A; camera_C] 3))) =
  (counts <- shared_view_count_by_camera two_frames ;;
   count_frame counts (entry_of (report [camera_A; camera_C] 3))).
Proof.
  split; [exact frame_3_is_new|].
  exact (count_after_new_frame two_frames 3 (snd (report [camera_A; camera_C] 3))
           frame_3_is_new).
Defined.

(** X8 at work: frame 3, seen by A and C, raises A's count from 1 to 2. *)
Lemma new_frame_raises_counts_by_one_witness :
  ~ In 3 (keys (shared_views_by_frame two_frames)) /\
  shared_view_count_by_camera two_frames =
    Return [(camera_A, 1); (camera_B, 2); (camera_C, 1)] /\
  shared_view_count_by_camera
    (receive_camera_node_output two_frames 3 (snd (report [camera_A; camera_C] 3))) =
    Return [(camera_A, 2); (camera_B, 2); (camera_C, 2)] /\
  getitem [(camera_A, 2); (camera_B, 2); (camera_C, 2)] camera_A = Some (1 + 1).
Proof.
  assert (H : shared_view_count_by_camera two_frames =
              Return [(camera_A, 1); (camera_B, 2); (camera_C, 1)]) by reflexivity.
  assert (H' : shared_view_count_by_camera
                 (receive_camera_node_output two_frames 3
                    (snd (report [camera_A; camera_C] 3))) =
               Return [(camera_A, 2); (camera_B, 2); (camera_C, 2)]) by reflexivity.
  split; [exact frame_3_is_new|]. split; [exact H|]. split; [exact H'|].
  exact (new_frame_raises_counts_by_one two_frames 3 _ _ _ camera_A frame_3_is_new H H').
Defined.

Lemma report_keys_distinct : NoDup (keys (snd (report [camera_A; camera_B] 1))).
Proof. apply NoDup_keys_comprehension. Defined.

(** X9 at work: camera C reported that it cannot see the target. *)
Lemma stored_after_receive_witness :
  NoDup (keys (snd (report [camera_A; camera_B] 1))) /\
  stored_observation
    (receive_camera_node_output (create [camera_A; camera_B; camera_C]) 1
       (snd (report [camera_A; camera_B] 1))) 1 camera_C = None.
Proof.
  split; [exact report_keys_distinct|].
  exact (stored_after_receive (create [camera_A; camera_B; camera_C]) 1
           (snd (report [camera_A; camera_B] 1)) camera_C report_keys_distinct).
Defined.

(** X12 at work: two shared views, four sightings. *)
Lemma counts_add_up_witness :
  shared_view_count_by_camera two_frames =
    Return [(camera_A, 1); (camera_B, 2); (camera_C, 1)] /\
  2 * Z.of_nat (List.length (shared_target_views two_frames)) <=
    sum_values [(camera_A, 1); (camera_B, 2); (camera_C, 1)].
Proof.
  assert (H : shared_view_count_by_camera two_frames =
              Return [(camera_A, 1); (camera_B, 2); (camera_C, 1)]) by reflexivity.
  split; [exact H|]. exact (proj2 (counts_add_up two_frames _ H)).
Defined.

(** X13 at work: frames 1 and 2 in both orders, after an earlier delivery
    for frame 1. *)
Lemma views_and_readiness_order_independent_witness :
  NoDup (map fst [report [camera_A; camera_B] 1; report [camera_B; camera_C] 2]) /\
  Permutation [report [camera_A; camera_B] 1; report [camera_B; camera_C] 2]
              [report [camera_B; camera_C] 2; report [camera_A; camera_B] 1] /\
  returned (all_cameras_have_min_shared_views
              (deliver_all (deliver_all (create [camera_A; camera_B; camera_C])
                                        [report [camera_A; camera_C] 1])
                 [report [camera_A; camera_B] 1; report [camera_B; camera_C] 2]) 1) =
  returned (all_cameras_have_min_shared_views
              (deliver_all (deliver_all (create [camera_A; camera_B; camera_C])
                                        [report [camera_A; camera_C] 1])
                 [report [camera_B; camera_C] 2; report [camera_A; camera_B] 1]) 1).
Proof.
  assert (ND : NoDup (map fst [report [camera_A; camera_B] 1;
                               report [camera_B; camera_C] 2])).
  { simpl. constructor; [|constructor; [|constructor]]; simpl; [|tauto].
    intros [H|[]]; discriminate H. }
  split; [exact ND|]. split; [apply perm_swap|].
  exact (proj2 (views_and_readiness_order_independent
                  [camera_A; camera_B; camera_C] [report [camera_A; camera_C] 1]
                  _ _ 1 ND (perm_swap _ _ _))).
Defined.

(** X14 at work: the entry of a frame seen by A and B. *)
Lemma multi_view_is_two_cameras_witness :
  NoDup (keys (views_by_camera (entry_of (report [camera_A; camera_B] 1)))) /\
  exists c1 c2 o1 o2,
    c1 <> c2 /\
    getitem (views_by_camera (entry_of (report [camera_A; camera_B] 1))) c1 = Some o1 /\
    can_see_target o1 = true /\
    getitem (views_by_camera (entry_of (report [camera_A; camera_B] 1))) c2 = Some o2 /\
    can_see_target o2 = true.
Proof.
  assert (ND : NoDup (keys (views_by_camera (entry_of (report [camera_A; camera_B] 1)))))
    by apply NoDup_keys_comprehension.
  split; [exact ND|].
  apply (proj1 (multi_view_is_two_cameras (entry_of (report [camera_A; camera_B] 1)) ND)).
  reflexivity.
Defined.

(** X16 at work: an idle poll and a good frame, then the shutdown event,
    then a frame that is never looked at. *)
Lemma shutdown_poll_ends_node_witness :
  forallb (goes_on flaky_detector) [CameraNode.NoNewFrame; CameraNode.NewFrame 1] = true /\
  CameraNode.exit
    (CameraNode._run flaky_detector
       ([CameraNode.NoNewFrame; CameraNode.NewFrame 1] ++
        CameraNode.ShutdownIsSet :: [CameraNode.NewFrame 2])) = CameraNode.Returned.
Proof.
  split; [reflexivity|].
  exact (proj1 (shutdown_poll_ends_node flaky_detector
                  [CameraNode.NoNewFrame; CameraNode.NewFrame 1]
                  [CameraNode.NewFrame 2] eq_refl)).
Defined.

(** X17 at work: two good frames, two outputs. *)
Lemma one_output_per_processed_frame_witness :
  forallb (goes_on flaky_detector)
    [CameraNode.NewFrame 1; CameraNode.NoNewFrame; CameraNode.NewFrame 2] = true /\
  List.length
    (CameraNode.output_queue
       (CameraNode._run flaky_detector
          [CameraNode.NewFrame 1; CameraNode.NoNewFrame; CameraNode.NewFrame 2])) =
  new_frames [CameraNode.NewFrame 1; CameraNode.NoNewFrame; CameraNode.NewFrame 2].
Proof.
  split; [reflexivity|].
  exact (proj2 (proj2 (one_output_per_processed_frame flaky_detector
           [CameraNode.NewFrame 1; CameraNode.NoNewFrame; CameraNode.NewFrame 2])) eq_refl).
Defined.

(** X18 at work: frame 3, seen by A and C, is new and goes last. *)
Lemma new_frame_goes_last_witness :
  ~ In 3 (keys (shared_views_by_frame two_frames)) /\
  shared_target_views
    (receive_camera_node_output two_frames 3 (snd (report [camera_A; camera_C] 3))) =
  shared_target_views two_frames ++ [entry_of (report [camera_A; camera_C] 3)].
Proof.
  split; [exact frame_3_is_new|].
  exact (proj2 (new_frame_goes_last two_frames 3 (snd (report [camera_A; camera_C] 3)))
           frame_3_is_new).
Defined.
